(** * EventBridge Pipes source parameters: schema, expand and flatten

    A shallow embedding of [internal/service/pipes/source_parameters.go]:
    the schema declared by [sourceParametersSchema], the expanders that turn
    a configuration node ([map[string]interface{}]) into the typed API
    objects, and the flatteners that go the other way. *)

From Stdlib Require Import ZArith Lia.
From stdpp Require Import gmap strings list fin_maps.

Set Warnings "-register-all".

Local Open Scope string_scope.
Local Open Scope Z_scope.

(** ** Go values *)

(** The named string types of the service API that the flatteners store in a
    configuration node without converting them back to [string]. *)
Inductive enum_type :=
| OnPartialBatchItemFailureStreams
| DynamoDBStreamStartPosition
| KinesisStreamStartPosition
| MSKStartPosition
| SelfManagedKafkaStartPosition.

(** A slice: [None] is the nil slice, [Some l] a slice with backing storage
    (possibly of length 0). *)
Definition slice (A : Type) : Type := option (list A).

Definition slice_items {A} (s : slice A) : list A :=
  match s with Some l => l | None => [] end.

Definition len {A} (s : slice A) : nat := length (slice_items s).

(** What an [interface{}] can hold in this file.  The dynamic type is part of
    the value: a type assertion [x.(int)] fails on an [int32]. *)
Inductive value :=
| VNil                                        (* the nil interface *)
| VBool (b : bool)
| VString (s : string)
| VInt (n : Z)                                (* int *)
| VInt32 (n : Z)                              (* int32 *)
| VEnum (ty : enum_type) (s : string)         (* a named string type *)
| VList (l : slice value)                     (* []interface{} *)
| VSet (l : list value)                       (* *schema.Set *)
| VMap (m : option (gmap string value)).      (* map[string]interface{}, None = nil map *)

(** A configuration node: [None] is the nil map. *)
Abbreviation tfmap := (option (gmap string value)).

(** ** Panics *)

(** A call either returns or panics (failed unchecked type assertion, nil
    pointer dereference). *)
Inductive outcome (A : Type) :=
| Returned (a : A)
| Panicked (msg : string).
Arguments Returned {A} a.
Arguments Panicked {A} msg.

#[global] Instance outcome_ret : MRet outcome := @Returned.

#[global] Instance outcome_bind : MBind outcome := fun A B k c =>
  match c with
  | Returned a => k a
  | Panicked msg => Panicked msg
  end.

(** ** Type assertions and conversions *)

(** [v, ok := tfMap[k].(int)]: a missing key yields the nil interface, on
    which every assertion fails. *)
Definition as_int (v : option value) : option Z :=
  match v with Some (VInt n) => Some n | _ => None end.

Definition as_string (v : option value) : option string :=
  match v with Some (VString s) => Some s | _ => None end.

Definition as_list (v : option value) : option (slice value) :=
  match v with Some (VList l) => Some l | _ => None end.

(** [v, ok := tfMap[k].([]interface{}); ok && len(v) > 0 && v[0] != nil]:
    the first element when every conjunct holds. *)
Definition first_block (v : option value) : option value :=
  match as_list v with
  | Some (Some (x :: _)) => match x with VNil => None | _ => Some x end
  | _ => None
  end.

(** [x.(map[string]interface{})], the unchecked form. *)
Definition assert_map (x : value) : outcome tfmap :=
  match x with
  | VMap m => Returned m
  | _ => Panicked "interface conversion: interface {} is not map[string]interface {}"
  end.

(** [int32(v)] for a 64-bit [int]: the low 32 bits, read as signed. *)
Definition int32 (v : Z) : Z := (v + 2 ^ 31) mod 2 ^ 32 - 2 ^ 31.

(** [if v, ok := tfMap[k].(int); ok && v != 0 { field = aws.Int32(int32(v)) }] *)
Definition expand_int32 (v : option value) : option Z :=
  match as_int v with
  | Some n => if n =? 0 then None else Some (int32 n)
  | None => None
  end.

(** [if v, ok := tfMap[k].(string); ok && v != "" { field = aws.String(v) }] *)
Definition expand_string (v : option value) : option string :=
  match as_string v with
  | Some s => if decide (s = "") then None else Some s
  | None => None
  end.

(** [if v, ok := tfMap[k].(string); ok && v != "" { field = T(v) }] for a
    field that is a [string] or a named string type [T], whose zero value is
    the empty string. *)
Definition expand_string_value (v : option value) : string :=
  match as_string v with
  | Some s => if decide (s = "") then "" else s
  | None => ""
  end.

(** [if v, ok := tfMap[k].([]interface{}); ok && len(v) > 0 && v[0] != nil
    { field = f(v[0].(map[string]interface{})) }]: the length-1 list wrapper
    of a nested block.  The assertion on [v[0]] is unchecked. *)
Definition expand_block {A} (f : tfmap -> outcome (option A))
    (v : option value) : outcome (option A) :=
  match first_block v with
  | Some v0 => m ← assert_map v0; f m
  | None => mret None
  end.

(** [append(s, x)] *)
Definition append {A} (s : slice A) (x : A) : slice A :=
  Some (slice_items s ++ [x])%list.

(** ** The typed API objects (package [types] of the service SDK)

    A pointer field is an [option]; a field of a named string type is a
    [string] whose zero value is the empty string. *)

Module Time.
(** [time.Time], as its calendar fields, nanoseconds and the offset of its
    zone in seconds east of UTC. *)
Record t := mk {
  year : Z; month : Z; day : Z;
  hour : Z; minute : Z; second : Z;
  nsec : Z;
  offset : Z }.
(** [time.Time{}]: January 1 of year 1, 00:00:00 UTC. *)
Definition zero : t := mk 1 1 1 0 0 0 0 0.
End Time.

Module DeadLetterConfig.
Record t := mk { Arn : option string }.
End DeadLetterConfig.

Module Filter.
Record t := mk { Pattern : option string }.
End Filter.

Module FilterCriteria.
Record t := mk { Filters : slice Filter.t }.
End FilterCriteria.

Module UnknownUnionMember.
Record t := mk { Tag : string; Value : string }.
End UnknownUnionMember.

Module MQBrokerAccessCredentialsMemberBasicAuth.
Record t := mk { Value : string }.
End MQBrokerAccessCredentialsMemberBasicAuth.

(** The union interface [types.MQBrokerAccessCredentials]: a non-nil
    interface value holds a pointer (possibly nil) to one of its members. *)
Inductive MQBrokerAccessCredentials :=
| MQBasicAuth (p : option MQBrokerAccessCredentialsMemberBasicAuth.t)
| MQUnknown (p : option UnknownUnionMember.t).

Module MSKAccessCredentialsMemberClientCertificateTlsAuth.
Record t := mk { Value : string }.
End MSKAccessCredentialsMemberClientCertificateTlsAuth.

Module MSKAccessCredentialsMemberSaslScram512Auth.
Record t := mk { Value : string }.
End MSKAccessCredentialsMemberSaslScram512Auth.

(** The union interface [types.MSKAccessCredentials]. *)
Inductive MSKAccessCredentials :=
| MSKClientCertificateTlsAuth (p : option MSKAccessCredentialsMemberClientCertificateTlsAuth.t)
| MSKSaslScram512Auth (p : option MSKAccessCredentialsMemberSaslScram512Auth.t)
| MSKUnknown (p : option UnknownUnionMember.t).

Module PipeSourceActiveMQBrokerParameters.
Record t := mk {
  BatchSize : option Z;
  Credentials : option MQBrokerAccessCredentials;
  MaximumBatchingWindowInSeconds : option Z;
  QueueName : option string }.
End PipeSourceActiveMQBrokerParameters.

Module PipeSourceDynamoDBStreamParameters.
Record t := mk {
  BatchSize : option Z;
  DeadLetterConfig : option DeadLetterConfig.t;
  MaximumBatchingWindowInSeconds : option Z;
  MaximumRecordAgeInSeconds : option Z;
  MaximumRetryAttempts : option Z;
  OnPartialBatchItemFailure : string;
  ParallelizationFactor : option Z;
  StartingPosition : string }.
End PipeSourceDynamoDBStreamParameters.

Module PipeSourceKinesisStreamParameters.
Record t := mk {
  BatchSize : option Z;
  DeadLetterConfig : option DeadLetterConfig.t;
  MaximumBatchingWindowInSeconds : option Z;
  MaximumRecordAgeInSeconds : option Z;
  MaximumRetryAttempts : option Z;
  OnPartialBatchItemFailure : string;
  ParallelizationFactor : option Z;
  StartingPosition : string;
  StartingPositionTimestamp : option Time.t }.
End PipeSourceKinesisStreamParameters.

Module PipeSourceManagedStreamingKafkaParameters.
Record t := mk {
  BatchSize : option Z;
  ConsumerGroupID : option string;
  Credentials : option MSKAccessCredentials;
  MaximumBatchingWindowInSeconds : option Z;
  StartingPosition : string;
  TopicName : option string }.
End PipeSourceManagedStreamingKafkaParameters.

Module PipeSourceSqsQueueParameters.
Record t := mk {
  BatchSize : option Z;
  MaximumBatchingWindowInSeconds : option Z }.
End PipeSourceSqsQueueParameters.

Module PipeSourceRabbitMQBrokerParameters.
Record t := mk {
  BatchSize : option Z;
  Credentials : option MQBrokerAccessCredentials;
  MaximumBatchingWindowInSeconds : option Z;
  QueueName : option string;
  VirtualHost : option string }.
End PipeSourceRabbitMQBrokerParameters.

(** The union interface
    [types.SelfManagedKafkaAccessConfigurationCredentials]. *)
Inductive SelfManagedKafkaAccessConfigurationCredentials :=
| SMKBasicAuth (p : option string)
| SMKClientCertificateTlsAuth (p : option string)
| SMKSaslScram256Auth (p : option string)
| SMKSaslScram512Auth (p : option string)
| SMKUnknown (p : option UnknownUnionMember.t).

Module SelfManagedKafkaAccessConfigurationVpc.
Record t := mk {
  SecurityGroup : slice string;
  Subnets : slice string }.
End SelfManagedKafkaAccessConfigurationVpc.

Module PipeSourceSelfManagedKafkaParameters.
Record t := mk {
  AdditionalBootstrapServers : slice string;
  BatchSize : option Z;
  ConsumerGroupID : option string;
  Credentials : option SelfManagedKafkaAccessConfigurationCredentials;
  MaximumBatchingWindowInSeconds : option Z;
  ServerRootCaCertificate : option string;
  StartingPosition : string;
  TopicName : option string;
  Vpc : option SelfManagedKafkaAccessConfigurationVpc.t }.
End PipeSourceSelfManagedKafkaParameters.

Module PipeSourceParameters.
Record t := mk {
  ActiveMQBrokerParameters : option PipeSourceActiveMQBrokerParameters.t;
  DynamoDBStreamParameters : option PipeSourceDynamoDBStreamParameters.t;
  FilterCriteria : option FilterCriteria.t;
  KinesisStreamParameters : option PipeSourceKinesisStreamParameters.t;
  ManagedStreamingKafkaParameters : option PipeSourceManagedStreamingKafkaParameters.t;
  RabbitMQBrokerParameters : option PipeSourceRabbitMQBrokerParameters.t;
  SelfManagedKafkaParameters : option PipeSourceSelfManagedKafkaParameters.t;
  SqsQueueParameters : option PipeSourceSqsQueueParameters.t }.
(** [types.PipeSourceParameters{}] *)
Definition zero : t := mk None None None None None None None None.
End PipeSourceParameters.

(** ** The [time] package

    [time.Parse] and [Time.Format] belong to the Go standard library; the
    mapper is parametrised by them.  [time_Parse layout s] is the pair that
    [time.Parse] returns, the error being [None] on success. *)
Definition RFC3339 : string := "2006-01-02T15:04:05Z07:00".

Section Mapper.

Variable time_Parse : string -> string -> Time.t * option string.
Variable time_Format : Time.t -> string -> string.

(** ** Expanders *)

Definition expandFilter (tfMap : tfmap) : option Filter.t :=
  match tfMap with
  | None => None
  | Some tfMap =>
    Some {| Filter.Pattern := expand_string (tfMap !! "pattern") |}
  end.

(** One iteration of the loop of [expandFilters]. *)
Definition expandFilters_step (apiObjects : slice Filter.t) (tfMapRaw : value)
    : slice Filter.t :=
  match tfMapRaw with
  | VMap tfMap =>
    match expandFilter tfMap with
    | None => apiObjects
    | Some apiObject => append apiObjects apiObject
    end
  | _ => apiObjects
  end.

Definition expandFilters (tfList : slice value) : slice Filter.t :=
  if decide (len tfList = 0%nat) then None
  else fold_left expandFilters_step (slice_items tfList) None.

Definition expandFilterCriteria (tfMap : tfmap) : option FilterCriteria.t :=
  match tfMap with
  | None => None
  | Some tfMap =>
    Some {| FilterCriteria.Filters :=
      match as_list (tfMap !! "filter") with
      | Some v => if decide (0 < len v)%nat then expandFilters v else None
      | None => None
      end |}
  end.

Definition expandMQBrokerAccessCredentialsMemberBasicAuth (tfMap : tfmap)
    : option MQBrokerAccessCredentials :=
  match tfMap with
  | None => None
  | Some tfMap =>
    Some (MQBasicAuth (Some
      {| MQBrokerAccessCredentialsMemberBasicAuth.Value :=
           expand_string_value (tfMap !! "basic_auth") |}))
  end.

Definition expandDeadLetterConfig (tfMap : tfmap) : option DeadLetterConfig.t :=
  match tfMap with
  | None => None
  | Some tfMap =>
    Some {| DeadLetterConfig.Arn := expand_string (tfMap !! "arn") |}
  end.

Definition expandPipeSourceActiveMQBrokerParameters (tfMap : tfmap)
    : outcome (option PipeSourceActiveMQBrokerParameters.t) :=
  match tfMap with
  | None => mret None
  | Some tfMap =>
    let batchSize := expand_int32 (tfMap !! "batch_size") in
    credentials ← expand_block
      (fun m => mret (expandMQBrokerAccessCredentialsMemberBasicAuth m))
      (tfMap !! "credentials");
    let window := expand_int32 (tfMap !! "maximum_batching_window_in_seconds") in
    let queueName := expand_string (tfMap !! "queue_name") in
    mret (Some {|
      PipeSourceActiveMQBrokerParameters.BatchSize := batchSize;
      PipeSourceActiveMQBrokerParameters.Credentials := credentials;
      PipeSourceActiveMQBrokerParameters.MaximumBatchingWindowInSeconds := window;
      PipeSourceActiveMQBrokerParameters.QueueName := queueName |})
  end.

Definition expandPipeSourceDynamoDBStreamParameters (tfMap : tfmap)
    : outcome (option PipeSourceDynamoDBStreamParameters.t) :=
  match tfMap with
  | None => mret None
  | Some tfMap =>
    let batchSize := expand_int32 (tfMap !! "batch_size") in
    deadLetterConfig ← expand_block (fun m => mret (expandDeadLetterConfig m))
      (tfMap !! "dead_letter_config");
    mret (Some {|
      PipeSourceDynamoDBStreamParameters.BatchSize := batchSize;
      PipeSourceDynamoDBStreamParameters.DeadLetterConfig := deadLetterConfig;
      PipeSourceDynamoDBStreamParameters.MaximumBatchingWindowInSeconds :=
        expand_int32 (tfMap !! "maximum_batching_window_in_seconds");
      PipeSourceDynamoDBStreamParameters.MaximumRecordAgeInSeconds :=
        expand_int32 (tfMap !! "maximum_record_age_in_seconds");
      PipeSourceDynamoDBStreamParameters.MaximumRetryAttempts :=
        expand_int32 (tfMap !! "maximum_retry_attempts");
      PipeSourceDynamoDBStreamParameters.OnPartialBatchItemFailure :=
        expand_string_value (tfMap !! "on_partial_batch_item_failure");
      PipeSourceDynamoDBStreamParameters.ParallelizationFactor :=
        expand_int32 (tfMap !! "parallelization_factor");
      PipeSourceDynamoDBStreamParameters.StartingPosition :=
        expand_string_value (tfMap !! "starting_position") |})
  end.

(** [if v, ok := tfMap[k].(string); ok && v != "" { v, _ := time.Parse(time.RFC3339, v);
    field = aws.Time(v) }]: the error of [time.Parse] is dropped. *)
Definition expand_time (v : option value) : option Time.t :=
  match as_string v with
  | Some s => if decide (s = "") then None else Some (fst (time_Parse RFC3339 s))
  | None => None
  end.

Definition expandPipeSourceKinesisStreamParameters (tfMap : tfmap)
    : outcome (option PipeSourceKinesisStreamParameters.t) :=
  match tfMap with
  | None => mret None
  | Some tfMap =>
    let batchSize := expand_int32 (tfMap !! "batch_size") in
    deadLetterConfig ← expand_block (fun m => mret (expandDeadLetterConfig m))
      (tfMap !! "dead_letter_config");
    mret (Some {|
      PipeSourceKinesisStreamParameters.BatchSize := batchSize;
      PipeSourceKinesisStreamParameters.DeadLetterConfig := deadLetterConfig;
      PipeSourceKinesisStreamParameters.MaximumBatchingWindowInSeconds :=
        expand_int32 (tfMap !! "maximum_batching_window_in_seconds");
      PipeSourceKinesisStreamParameters.MaximumRecordAgeInSeconds :=
        expand_int32 (tfMap !! "maximum_record_age_in_seconds");
      PipeSourceKinesisStreamParameters.MaximumRetryAttempts :=
        expand_int32 (tfMap !! "maximum_retry_attempts");
      PipeSourceKinesisStreamParameters.OnPartialBatchItemFailure :=
        expand_string_value (tfMap !! "on_partial_batch_item_failure");
      PipeSourceKinesisStreamParameters.ParallelizationFactor :=
        expand_int32 (tfMap !! "parallelization_factor");
      PipeSourceKinesisStreamParameters.StartingPosition :=
        expand_string_value (tfMap !! "starting_position");
      PipeSourceKinesisStreamParameters.StartingPositionTimestamp :=
        expand_time (tfMap !! "starting_position_timestamp") |})
  end.

Definition expandMSKAccessCredentials (tfMap : tfmap)
    : option MSKAccessCredentials :=
  match tfMap with
  | None => None
  | Some tfMap =>
    match expand_string (tfMap !! "client_certificate_tls_auth") with
    | Some v =>
      Some (MSKClientCertificateTlsAuth (Some
        {| MSKAccessCredentialsMemberClientCertificateTlsAuth.Value := v |}))
    | None =>
      match expand_string (tfMap !! "sasl_scram_512_auth") with
      | Some v =>
        Some (MSKSaslScram512Auth (Some
          {| MSKAccessCredentialsMemberSaslScram512Auth.Value := v |}))
      | None => None
      end
    end
  end.

Definition expandPipeSourceManagedStreamingKafkaParameters (tfMap : tfmap)
    : outcome (option PipeSourceManagedStreamingKafkaParameters.t) :=
  match tfMap with
  | None => mret None
  | Some tfMap =>
    let batchSize := expand_int32 (tfMap !! "batch_size") in
    let consumerGroupID := expand_string (tfMap !! "consumer_group_id") in
    credentials ← expand_block (fun m => mret (expandMSKAccessCredentials m))
      (tfMap !! "credentials");
    mret (Some {|
      PipeSourceManagedStreamingKafkaParameters.BatchSize := batchSize;
      PipeSourceManagedStreamingKafkaParameters.ConsumerGroupID := consumerGroupID;
      PipeSourceManagedStreamingKafkaParameters.Credentials := credentials;
      PipeSourceManagedStreamingKafkaParameters.MaximumBatchingWindowInSeconds :=
        expand_int32 (tfMap !! "maximum_batching_window_in_seconds");
      PipeSourceManagedStreamingKafkaParameters.StartingPosition :=
        expand_string_value (tfMap !! "starting_position");
      PipeSourceManagedStreamingKafkaParameters.TopicName :=
        expand_string (tfMap !! "topic_name") |})
  end.

Definition expandPipeSourceSqsQueueParameters (tfMap : tfmap)
    : option PipeSourceSqsQueueParameters.t :=
  match tfMap with
  | None => None
  | Some tfMap =>
    Some {|
      PipeSourceSqsQueueParameters.BatchSize :=
        expand_int32 (tfMap !! "batch_size");
      PipeSourceSqsQueueParameters.MaximumBatchingWindowInSeconds :=
        expand_int32 (tfMap !! "maximum_batching_window_in_seconds") |}
  end.

(** The keys [rabbit_mq_broker] and [self_managed_kafka] of the schema are
    not read: the source has a [// TODO] in their place, so the two fields
    keep their zero value. *)
Definition expandPipeSourceParameters (tfMap : tfmap)
    : outcome (option PipeSourceParameters.t) :=
  match tfMap with
  | None => mret None
  | Some tfMap =>
    activeMQ ← expand_block expandPipeSourceActiveMQBrokerParameters
      (tfMap !! "activemq_broker_parameters");
    dynamoDB ← expand_block expandPipeSourceDynamoDBStreamParameters
      (tfMap !! "dynamodb_stream_parameters");
    filterCriteria ← expand_block (fun m => mret (expandFilterCriteria m))
      (tfMap !! "filter_criteria");
    kinesis ← expand_block expandPipeSourceKinesisStreamParameters
      (tfMap !! "kinesis_stream_parameters");
    msk ← expand_block expandPipeSourceManagedStreamingKafkaParameters
      (tfMap !! "managed_streaming_kafka_parameters");
    sqs ← expand_block (fun m => mret (expandPipeSourceSqsQueueParameters m))
      (tfMap !! "sqs_queue_parameters");
    mret (Some {|
      PipeSourceParameters.ActiveMQBrokerParameters := activeMQ;
      PipeSourceParameters.DynamoDBStreamParameters := dynamoDB;
      PipeSourceParameters.FilterCriteria := filterCriteria;
      PipeSourceParameters.KinesisStreamParameters := kinesis;
      PipeSourceParameters.ManagedStreamingKafkaParameters := msk;
      PipeSourceParameters.RabbitMQBrokerParameters := None;
      PipeSourceParameters.SelfManagedKafkaParameters := None;
      PipeSourceParameters.SqsQueueParameters := sqs |})
  end.

(** ** Flatteners *)

(** [if v := field; v != nil { tfMap[k] = f(v) }] *)
Definition set_if {A} (k : string) (field : option A) (f : A -> value)
    (tfMap : gmap string value) : gmap string value :=
  match field with
  | Some v => <[k := f v]> tfMap
  | None => tfMap
  end.

(** [if v := field; v != "" { tfMap[k] = v }] for a field of the named string
    type [ty]: the value is stored with that dynamic type. *)
Definition set_enum (k : string) (ty : enum_type) (field : string)
    (tfMap : gmap string value) : gmap string value :=
  if decide (field = "") then tfMap else <[k := VEnum ty field]> tfMap.

(** [[]interface{}{m}] *)
Definition wrap (m : tfmap) : value := VList (Some [VMap m]).

Definition flattenFilter (apiObject : Filter.t) : tfmap :=
  let tfMap := ∅ in
  let tfMap := set_if "pattern" (Filter.Pattern apiObject) VString tfMap in
  Some tfMap.

Definition flattenFilters (apiObjects : slice Filter.t) : slice value :=
  if decide (len apiObjects = 0%nat) then None
  else fold_left (fun tfList apiObject => append tfList (VMap (flattenFilter apiObject)))
         (slice_items apiObjects) None.

Definition flattenFilterCriteria (apiObject : option FilterCriteria.t) : tfmap :=
  match apiObject with
  | None => None
  | Some apiObject =>
    let tfMap := ∅ in
    let tfMap :=
      match FilterCriteria.Filters apiObject with
      | Some v => <["filter" := VList (flattenFilters (Some v))]> tfMap
      | None => tfMap
      end in
    Some tfMap
  end.

Definition flattenMQBrokerAccessCredentialsMemberBasicAuth
    (apiObject : option MQBrokerAccessCredentialsMemberBasicAuth.t) : tfmap :=
  match apiObject with
  | None => None
  | Some apiObject =>
    let tfMap := ∅ in
    let v := MQBrokerAccessCredentialsMemberBasicAuth.Value apiObject in
    let tfMap := if decide (v = "") then tfMap else <["basic_auth" := VString v]> tfMap in
    Some tfMap
  end.

(** The unchecked assertion of [v] to a pointer to the basic-auth member. *)
Definition assert_MQBasicAuth (v : MQBrokerAccessCredentials)
    : outcome (option MQBrokerAccessCredentialsMemberBasicAuth.t) :=
  match v with
  | MQBasicAuth p => Returned p
  | MQUnknown _ =>
    Panicked "interface conversion: types.MQBrokerAccessCredentials is not *types.MQBrokerAccessCredentialsMemberBasicAuth"
  end.

Definition flattenPipeSourceActiveMQBrokerParameters
    (apiObject : option PipeSourceActiveMQBrokerParameters.t) : outcome tfmap :=
  match apiObject with
  | None => mret None
  | Some apiObject =>
    let tfMap := ∅ in
    let tfMap := set_if "batch_size"
      (PipeSourceActiveMQBrokerParameters.BatchSize apiObject) VInt32 tfMap in
    tfMap ← match PipeSourceActiveMQBrokerParameters.Credentials apiObject with
            | Some v =>
              p ← assert_MQBasicAuth v;
              mret (<["credentials" :=
                       wrap (flattenMQBrokerAccessCredentialsMemberBasicAuth p)]> tfMap)
            | None => mret tfMap
            end;
    let tfMap := set_if "maximum_batching_window_in_seconds"
      (PipeSourceActiveMQBrokerParameters.MaximumBatchingWindowInSeconds apiObject)
      VInt32 tfMap in
    let tfMap := set_if "queue_name"
      (PipeSourceActiveMQBrokerParameters.QueueName apiObject) VString tfMap in
    mret (Some tfMap)
  end.

Definition flattenDeadLetterConfig (apiObject : option DeadLetterConfig.t) : tfmap :=
  match apiObject with
  | None => None
  | Some apiObject =>
    let tfMap := ∅ in
    let tfMap := set_if "arn" (DeadLetterConfig.Arn apiObject) VString tfMap in
    Some tfMap
  end.

Definition flattenPipeSourceDynamoDBStreamParameters
    (apiObject : option PipeSourceDynamoDBStreamParameters.t) : tfmap :=
  match apiObject with
  | None => None
  | Some apiObject =>
    let tfMap := ∅ in
    let tfMap := set_if "batch_size"
      (PipeSourceDynamoDBStreamParameters.BatchSize apiObject) VInt32 tfMap in
    let tfMap := set_if "dead_letter_config"
      (PipeSourceDynamoDBStreamParameters.DeadLetterConfig apiObject)
      (fun v => wrap (flattenDeadLetterConfig (Some v))) tfMap in
    let tfMap := set_if "maximum_batching_window_in_seconds"
      (PipeSourceDynamoDBStreamParameters.MaximumBatchingWindowInSeconds apiObject)
      VInt32 tfMap in
    let tfMap := set_if "maximum_record_age_in_seconds"
      (PipeSourceDynamoDBStreamParameters.MaximumRecordAgeInSeconds apiObject)
      VInt32 tfMap in
    let tfMap := set_if "maximum_retry_attempts"
      (PipeSourceDynamoDBStreamParameters.MaximumRetryAttempts apiObject)
      VInt32 tfMap in
    let tfMap := set_enum "on_partial_batch_item_failure"
      OnPartialBatchItemFailureStreams
      (PipeSourceDynamoDBStreamParameters.OnPartialBatchItemFailure apiObject)
      tfMap in
    let tfMap := set_if "parallelization_factor"
      (PipeSourceDynamoDBStreamParameters.ParallelizationFactor apiObject)
      VInt32 tfMap in
    let tfMap := set_enum "starting_position" DynamoDBStreamStartPosition
      (PipeSourceDynamoDBStreamParameters.StartingPosition apiObject) tfMap in
    Some tfMap
  end.

Definition flattenPipeSourceKinesisStreamParameters
    (apiObject : option PipeSourceKinesisStreamParameters.t) : tfmap :=
  match apiObject with
  | None => None
  | Some apiObject =>
    let tfMap := ∅ in
    let tfMap := set_if "batch_size"
      (PipeSourceKinesisStreamParameters.BatchSize apiObject) VInt32 tfMap in
    let tfMap := set_if "dead_letter_config"
      (PipeSourceKinesisStreamParameters.DeadLetterConfig apiObject)
      (fun v => wrap (flattenDeadLetterConfig (Some v))) tfMap in
    let tfMap := set_if "maximum_batching_window_in_seconds"
      (PipeSourceKinesisStreamParameters.MaximumBatchingWindowInSeconds apiObject)
      VInt32 tfMap in
    let tfMap := set_if "maximum_record_age_in_seconds"
      (PipeSourceKinesisStreamParameters.MaximumRecordAgeInSeconds apiObject)
      VInt32 tfMap in
    let tfMap := set_if "maximum_retry_attempts"
      (PipeSourceKinesisStreamParameters.MaximumRetryAttempts apiObject)
      VInt32 tfMap in
    let tfMap := set_enum "on_partial_batch_item_failure"
      OnPartialBatchItemFailureStreams
      (PipeSourceKinesisStreamParameters.OnPartialBatchItemFailure apiObject)
      tfMap in
    let tfMap := set_if "parallelization_factor"
      (PipeSourceKinesisStreamParameters.ParallelizationFactor apiObject)
      VInt32 tfMap in
    let tfMap := set_enum "starting_position" KinesisStreamStartPosition
      (PipeSourceKinesisStreamParameters.StartingPosition apiObject) tfMap in
    let tfMap := set_if "starting_position_timestamp"
      (PipeSourceKinesisStreamParameters.StartingPositionTimestamp apiObject)
      (fun v => VString (time_Format v RFC3339)) tfMap in
    Some tfMap
  end.

(** Reading [apiObject.Value] through a pointer: a nil pointer panics. *)
Definition deref {A} (p : option A) : outcome A :=
  match p with
  | Some a => Returned a
  | None => Panicked "runtime error: invalid memory address or nil pointer dereference"
  end.

Definition flattenMSKAccessCredentials (apiObject : option MSKAccessCredentials)
    : outcome tfmap :=
  match apiObject with
  | None => mret None
  | Some apiObject =>
    let tfMap := ∅ in
    tfMap ← match apiObject with
            | MSKClientCertificateTlsAuth p =>
              a ← deref p;
              let v := MSKAccessCredentialsMemberClientCertificateTlsAuth.Value a in
              mret (if decide (v = "") then tfMap
                    else <["client_certificate_tls_auth" := VString v]> tfMap)
            | _ => mret tfMap
            end;
    tfMap ← match apiObject with
            | MSKSaslScram512Auth p =>
              a ← deref p;
              let v := MSKAccessCredentialsMemberSaslScram512Auth.Value a in
              mret (if decide (v = "") then tfMap
                    else <["sasl_scram_512_auth" := VString v]> tfMap)
            | _ => mret tfMap
            end;
    mret (Some tfMap)
  end.

Definition flattenPipeSourceManagedStreamingKafkaParameters
    (apiObject : option PipeSourceManagedStreamingKafkaParameters.t)
    : outcome tfmap :=
  match apiObject with
  | None => mret None
  | Some apiObject =>
    let tfMap := ∅ in
    let tfMap := set_if "batch_size"
      (PipeSourceManagedStreamingKafkaParameters.BatchSize apiObject)
      VInt32 tfMap in
    let tfMap := set_if "consumer_group_id"
      (PipeSourceManagedStreamingKafkaParameters.ConsumerGroupID apiObject)
      VString tfMap in
    tfMap ← match PipeSourceManagedStreamingKafkaParameters.Credentials apiObject with
            | Some v =>
              m ← flattenMSKAccessCredentials (Some v);
              mret (<["credentials" := wrap m]> tfMap)
            | None => mret tfMap
            end;
    let tfMap := set_if "maximum_batching_window_in_seconds"
      (PipeSourceManagedStreamingKafkaParameters.MaximumBatchingWindowInSeconds apiObject)
      VInt32 tfMap in
    let tfMap := set_enum "starting_position" MSKStartPosition
      (PipeSourceManagedStreamingKafkaParameters.StartingPosition apiObject)
      tfMap in
    let tfMap := set_if "topic_name"
      (PipeSourceManagedStreamingKafkaParameters.TopicName apiObject)
      VString tfMap in
    mret (Some tfMap)
  end.

Definition flattenPipeSourceSqsQueueParameters
    (apiObject : option PipeSourceSqsQueueParameters.t) : tfmap :=
  match apiObject with
  | None => None
  | Some apiObject =>
    let tfMap := ∅ in
    let tfMap := set_if "batch_size"
      (PipeSourceSqsQueueParameters.BatchSize apiObject) VInt32 tfMap in
    let tfMap := set_if "maximum_batching_window_in_seconds"
      (PipeSourceSqsQueueParameters.MaximumBatchingWindowInSeconds apiObject)
      VInt32 tfMap in
    Some tfMap
  end.

(** [if v := field; v != nil { tfMap[k] = []interface{}{f(v)} }] for a
    flattener [f] that can panic. *)
Definition set_block {A} (k : string) (field : option A)
    (f : option A -> outcome tfmap) (tfMap : gmap string value)
    : outcome (gmap string value) :=
  match field with
  | Some v => m ← f (Some v); mret (<[k := wrap m]> tfMap)
  | None => mret tfMap
  end.

(** As in the expander, [RabbitMQBrokerParameters] and
    [SelfManagedKafkaParameters] are not read ([// TODO] in the source). *)
Definition flattenPipeSourceParameters (apiObject : option PipeSourceParameters.t)
    : outcome tfmap :=
  match apiObject with
  | None => mret None
  | Some apiObject =>
    let tfMap := ∅ in
    tfMap ← set_block "activemq_broker_parameters"
      (PipeSourceParameters.ActiveMQBrokerParameters apiObject)
      flattenPipeSourceActiveMQBrokerParameters tfMap;
    tfMap ← set_block "dynamodb_stream_parameters"
      (PipeSourceParameters.DynamoDBStreamParameters apiObject)
      (fun v => mret (flattenPipeSourceDynamoDBStreamParameters v)) tfMap;
    tfMap ← set_block "filter_criteria"
      (PipeSourceParameters.FilterCriteria apiObject)
      (fun v => mret (flattenFilterCriteria v)) tfMap;
    tfMap ← set_block "kinesis_stream_parameters"
      (PipeSourceParameters.KinesisStreamParameters apiObject)
      (fun v => mret (flattenPipeSourceKinesisStreamParameters v)) tfMap;
    tfMap ← set_block "managed_streaming_kafka_parameters"
      (PipeSourceParameters.ManagedStreamingKafkaParameters apiObject)
      flattenPipeSourceManagedStreamingKafkaParameters tfMap;
    tfMap ← set_block "sqs_queue_parameters"
      (PipeSourceParameters.SqsQueueParameters apiObject)
      (fun v => mret (flattenPipeSourceSqsQueueParameters v)) tfMap;
    mret (Some tfMap)
  end.

(** Expand, then flatten what came out. *)
Definition roundtrip (tfMap : tfmap) : outcome tfmap :=
  apiObject ← expandPipeSourceParameters tfMap;
  flattenPipeSourceParameters apiObject.

End Mapper.

(** ** Comparing configuration nodes up to the Go type of their scalars

    [retype] rewrites every [int32] to the [int] and every value of a named
    string type to the [string] with the same contents, which is how the
    schema reads them when the node is stored as [TypeInt] or [TypeString]. *)
Fixpoint retype (v : value) : value :=
  match v with
  | VInt32 n => VInt n
  | VEnum _ s => VString s
  | VList l => VList (option_map (List.map retype) l)
  | VSet l => VSet (List.map retype l)
  | VMap m => VMap (option_map (fmap retype) m)
  | _ => v
  end.

(** ** The schema (package [schema] of the plugin SDK) *)

Inductive ValueType := TypeInvalid | TypeInt | TypeString | TypeList | TypeSet.

(** The validators the schema names, from the SDK's [validation] package and
    the provider's [verify] and [enum] packages. *)
Inductive validator :=
| IntBetween (min max : Z)
| IntInSlice (valid : list Z)
| StringLenBetween (min max : Z)
| StringMatch (re : string)
| All (vs : list validator)
| Any (vs : list validator)
| ValidARN
| IsRFC3339Time
| enum_Validate (ty : enum_type).

(** The two kinds of [DiffSuppressFunc] of the schema: the closure
    [func(k, old, new string, d) bool { if new != "" && new != "0" { return false };
    return old == dflt }], and [verify.SuppressMissingOptionalConfigurationBlock]. *)
Inductive diff_suppress :=
| SuppressUnset (dflt : string)
| SuppressMissingOptionalConfigurationBlock.

Definition suppress_unset (dflt old new : string) : bool :=
  if bool_decide (new ≠ "" ∧ new ≠ "0") then false else bool_decide (old = dflt).

(** [Elem] is a [*schema.Resource] (a nested block) or a [*schema.Schema]
    (the element type of a list or set of scalars). *)
Inductive elem (S : Type) :=
| Resource (fields : list (string * S))
| ElemSchema (s : S).
Arguments Resource {S} fields.
Arguments ElemSchema {S} s.

Inductive Schema := mkSchema {
  Type_ : ValueType;
  Optional : bool;
  Required : bool;
  Computed : bool;
  ForceNew : bool;
  MaxItems : nat;
  ConflictsWith : list string;
  Default : option value;
  ValidateFunc : option validator;
  ValidateDiagFunc : option validator;
  DiffSuppressFunc : option diff_suppress;
  Elem : option (elem Schema) }.

(** The entries of a composite literal [&schema.Schema{...}]; a field that
    the literal leaves out keeps its zero value. *)
Inductive entry :=
| Type_is (t : ValueType)
| Optional_is (b : bool)
| Required_is (b : bool)
| Computed_is (b : bool)
| ForceNew_is (b : bool)
| MaxItems_is (n : nat)
| ConflictsWith_is (l : list string)
| Default_is (v : value)
| ValidateFunc_is (f : validator)
| ValidateDiagFunc_is (f : validator)
| DiffSuppressFunc_is (f : diff_suppress)
| Elem_is (e : elem Schema).

Definition set_entry (s : Schema) (e : entry) : Schema :=
  let '(mkSchema ty opt req comp fnew maxi confl dflt vf vdf dsf el) := s in
  match e with
  | Type_is x => mkSchema x opt req comp fnew maxi confl dflt vf vdf dsf el
  | Optional_is x => mkSchema ty x req comp fnew maxi confl dflt vf vdf dsf el
  | Required_is x => mkSchema ty opt x comp fnew maxi confl dflt vf vdf dsf el
  | Computed_is x => mkSchema ty opt req x fnew maxi confl dflt vf vdf dsf el
  | ForceNew_is x => mkSchema ty opt req comp x maxi confl dflt vf vdf dsf el
  | MaxItems_is x => mkSchema ty opt req comp fnew x confl dflt vf vdf dsf el
  | ConflictsWith_is x => mkSchema ty opt req comp fnew maxi x dflt vf vdf dsf el
  | Default_is x => mkSchema ty opt req comp fnew maxi confl (Some x) vf vdf dsf el
  | ValidateFunc_is x => mkSchema ty opt req comp fnew maxi confl dflt (Some x) vdf dsf el
  | ValidateDiagFunc_is x => mkSchema ty opt req comp fnew maxi confl dflt vf (Some x) dsf el
  | DiffSuppressFunc_is x => mkSchema ty opt req comp fnew maxi confl dflt vf vdf (Some x) el
  | Elem_is x => mkSchema ty opt req comp fnew maxi confl dflt vf vdf dsf (Some x)
  end.

Definition schema (entries : list entry) : Schema :=
  fold_left set_entry entries
    (mkSchema TypeInvalid false false false false 0 [] None None None None None).

(** [verifySecretsManagerARN], the first statement of [sourceParametersSchema]. *)
Definition verifySecretsManagerARN : validator :=
  StringMatch "^(^arn:aws([a-z]|\-)*:secretsmanager:([a-z]{2}((-gov)|(-iso(b?)))?-[a-z]+-\d{1}):(\d{12}):secret:.+)$".

(** The six other variants a variant conflicts with. *)
Definition variant_keys : list string :=
  [ "activemq_broker_parameters"; "dynamodb_stream_parameters";
    "kinesis_stream_parameters"; "managed_streaming_kafka_parameters";
    "rabbit_mq_broker"; "self_managed_kafka"; "sqs_queue_parameters" ].

Definition conflicts_of (k : string) : list string :=
  List.map (String.append "source_parameters.0.")
    (List.filter (fun k' => negb (String.eqb k k')) variant_keys).

Definition batch_size_schema (dflt : string) : Schema :=
  schema [ Type_is TypeInt; Optional_is true;
           ValidateFunc_is (IntBetween 1 10000);
           DiffSuppressFunc_is (SuppressUnset dflt) ].

Definition maximum_batching_window_in_seconds_schema : Schema :=
  schema [ Type_is TypeInt; Optional_is true;
           ValidateFunc_is (IntBetween 0 300);
           DiffSuppressFunc_is (SuppressUnset "0") ].

Definition dead_letter_config_schema : Schema :=
  schema [ Type_is TypeList; Optional_is true; MaxItems_is 1;
           Elem_is (Resource [
             ("arn", schema [ Type_is TypeString; Optional_is true;
                              ValidateFunc_is ValidARN ]) ]) ].

Definition basic_auth_credentials_schema : Schema :=
  schema [ Type_is TypeList; Required_is true; MaxItems_is 1;
           Elem_is (Resource [
             ("basic_auth", schema [ Type_is TypeString; Required_is true;
                                     ValidateFunc_is verifySecretsManagerARN ]) ]) ].

(** The fields shared by [dynamodb_stream_parameters] and
    [kinesis_stream_parameters], which differ in the enumeration of
    [starting_position] and in [starting_position_timestamp]. *)
Definition stream_fields (position : enum_type) : list (string * Schema) :=
  [ ("batch_size", batch_size_schema "100");
    ("dead_letter_config", dead_letter_config_schema);
    ("maximum_batching_window_in_seconds", maximum_batching_window_in_seconds_schema);
    ("maximum_record_age_in_seconds",
      schema [ Type_is TypeInt; Optional_is true; Computed_is true;
               ValidateFunc_is (Any [IntInSlice [-1]; IntBetween 60 604800]) ]);
    ("maximum_retry_attempts",
      schema [ Type_is TypeInt; Optional_is true;
               ValidateFunc_is (IntBetween (-1) 10000) ]);
    ("on_partial_batch_item_failure",
      schema [ Type_is TypeString; Optional_is true;
               ValidateDiagFunc_is (enum_Validate OnPartialBatchItemFailureStreams) ]);
    ("parallelization_factor",
      schema [ Type_is TypeInt; Optional_is true;
               ValidateFunc_is (IntBetween 1 10); Default_is (VInt 1) ]);
    ("starting_position",
      schema [ Type_is TypeString; Required_is true; ForceNew_is true;
               ValidateDiagFunc_is (enum_Validate position) ]) ].

Definition kafka_name_re : string := "^[^.]([a-zA-Z0-9\-_.]+)$".
Definition any_text_re : string := "^[\s\S]*$".
Definition identifier_re : string := "^[a-zA-Z0-9-\/*:_+=.@-]*$".

Definition string_set_schema (max : nat) (len_max : Z) (re : string) (extra : list entry)
    : Schema :=
  schema ([ Type_is TypeSet; Optional_is true ] ++ extra ++ [ MaxItems_is max;
           Elem_is (ElemSchema (schema [ Type_is TypeString;
             ValidateFunc_is (All [StringLenBetween 1 len_max; StringMatch re]) ])) ]).

Definition sourceParametersSchema : Schema :=
  schema [ Type_is TypeList; Optional_is true; Computed_is true; MaxItems_is 1;
    Elem_is (Resource [
      ("activemq_broker_parameters",
        schema [ Type_is TypeList; Optional_is true; MaxItems_is 1;
          ConflictsWith_is (conflicts_of "activemq_broker_parameters");
          Elem_is (Resource [
            ("batch_size", batch_size_schema "100");
            ("credentials", basic_auth_credentials_schema);
            ("maximum_batching_window_in_seconds", maximum_batching_window_in_seconds_schema);
            ("queue_name",
              schema [ Type_is TypeString; Required_is true; ForceNew_is true;
                ValidateFunc_is (All [StringLenBetween 1 1000; StringMatch any_text_re]) ]) ]) ]);
      ("dynamodb_stream_parameters",
        schema [ Type_is TypeList; Optional_is true; MaxItems_is 1;
          ConflictsWith_is (conflicts_of "dynamodb_stream_parameters");
          Elem_is (Resource (stream_fields DynamoDBStreamStartPosition)) ]);
      ("filter_criteria",
        schema [ Type_is TypeList; Optional_is true; MaxItems_is 1;
          DiffSuppressFunc_is SuppressMissingOptionalConfigurationBlock;
          Elem_is (Resource [
            ("filter",
              schema [ Type_is TypeList; Required_is true; MaxItems_is 5;
                Elem_is (Resource [
                  ("pattern",
                    schema [ Type_is TypeString; Required_is true;
                      ValidateFunc_is (StringLenBetween 1 4096) ]) ]) ]) ]) ]);
      ("kinesis_stream_parameters",
        schema [ Type_is TypeList; Optional_is true; MaxItems_is 1;
          ConflictsWith_is (conflicts_of "kinesis_stream_parameters");
          Elem_is (Resource (stream_fields KinesisStreamStartPosition ++ [
            ("starting_position_timestamp",
              schema [ Type_is TypeString; Optional_is true; ForceNew_is true;
                ValidateFunc_is IsRFC3339Time ]) ])) ]);
      ("managed_streaming_kafka_parameters",
        schema [ Type_is TypeList; Optional_is true; MaxItems_is 1;
          ConflictsWith_is (conflicts_of "managed_streaming_kafka_parameters");
          Elem_is (Resource [
            ("batch_size", batch_size_schema "100");
            ("consumer_group_id",
              schema [ Type_is TypeString; Optional_is true;
                ValidateFunc_is (All [StringLenBetween 1 200; StringMatch kafka_name_re]) ]);
            ("credentials",
              schema [ Type_is TypeList; Optional_is true; MaxItems_is 1;
                Elem_is (Resource [
                  ("client_certificate_tls_auth",
                    schema [ Type_is TypeString; Optional_is true;
                      ValidateFunc_is verifySecretsManagerARN ]);
                  ("sasl_scram_512_auth",
                    schema [ Type_is TypeString; Optional_is true;
                      ValidateFunc_is verifySecretsManagerARN ]) ]) ]);
            ("maximum_batching_window_in_seconds", maximum_batching_window_in_seconds_schema);
            ("starting_position",
              schema [ Type_is TypeString; Optional_is true; ForceNew_is true;
                ValidateDiagFunc_is (enum_Validate MSKStartPosition) ]);
            ("topic_name",
              schema [ Type_is TypeString; Required_is true; ForceNew_is true;
                ValidateFunc_is (All [StringLenBetween 1 249; StringMatch kafka_name_re]) ]) ]) ]);
      ("rabbit_mq_broker",
        schema [ Type_is TypeList; Optional_is true; MaxItems_is 1;
          ConflictsWith_is (conflicts_of "rabbit_mq_broker");
          Elem_is (Resource [
            ("batch_size", batch_size_schema "100");
            ("credentials", basic_auth_credentials_schema);
            ("maximum_batching_window_in_seconds", maximum_batching_window_in_seconds_schema);
            ("queue",
              schema [ Type_is TypeString; Required_is true; ForceNew_is true;
                ValidateFunc_is (All [StringLenBetween 1 1000; StringMatch any_text_re]) ]);
            ("virtual_host",
              schema [ Type_is TypeString; Optional_is true; ForceNew_is true;
                ValidateFunc_is (All [StringLenBetween 1 200; StringMatch identifier_re]) ]) ]) ]);
      ("self_managed_kafka",
        schema [ Type_is TypeList; Optional_is true; MaxItems_is 1;
          ConflictsWith_is (conflicts_of "self_managed_kafka");
          Elem_is (Resource [
            ("batch_size", batch_size_schema "100");
            ("consumer_group_id",
              schema [ Type_is TypeString; Optional_is true; ForceNew_is true;
                ValidateFunc_is (All [StringLenBetween 1 200; StringMatch identifier_re]) ]);
            ("credentials",
              schema [ Type_is TypeList; Optional_is true; MaxItems_is 1;
                Elem_is (Resource [
                  ("basic_auth",
                    schema [ Type_is TypeString; Required_is true;
                      ValidateFunc_is verifySecretsManagerARN ]);
                  ("client_certificate_tls_auth",
                    schema [ Type_is TypeString; Optional_is true;
                      ValidateFunc_is verifySecretsManagerARN ]);
                  ("sasl_scram_256_auth",
                    schema [ Type_is TypeString; Optional_is true;
                      ValidateFunc_is verifySecretsManagerARN ]);
                  ("sasl_scram_512_auth",
                    schema [ Type_is TypeString; Optional_is true;
                      ValidateFunc_is verifySecretsManagerARN ]) ]) ]);
            ("maximum_batching_window_in_seconds", maximum_batching_window_in_seconds_schema);
            ("server_root_ca_certificate",
              schema [ Type_is TypeString; Optional_is true; ValidateFunc_is ValidARN ]);
            ("servers",
              string_set_schema 2 300
                "^(([a-zA-Z0-9]|[a-zA-Z0-9][a-zA-Z0-9\-]*[a-zA-Z0-9])\.)*([A-Za-z0-9]|[A-Za-z0-9][A-Za-z0-9\-]*[A-Za-z0-9]):[0-9]{1,5}$"
                [ ForceNew_is true ]);
            ("starting_position",
              schema [ Type_is TypeString; Optional_is true; ForceNew_is true;
                ValidateDiagFunc_is (enum_Validate SelfManagedKafkaStartPosition) ]);
            ("topic",
              schema [ Type_is TypeString; Required_is true; ForceNew_is true;
                ValidateFunc_is (All [StringLenBetween 1 249; StringMatch kafka_name_re]) ]);
            ("vpc",
              schema [ Type_is TypeList; Optional_is true; MaxItems_is 1;
                Elem_is (Resource [
                  ("security_groups",
                    string_set_schema 5 1024 "^sg-[0-9a-zA-Z]*$" []);
                  ("subnets",
                    string_set_schema 16 1024 "^subnet-[0-9a-z]*$" []) ]) ]) ]) ]);
      ("sqs_queue_parameters",
        schema [ Type_is TypeList; Optional_is true; Computed_is true; MaxItems_is 1;
          ConflictsWith_is (conflicts_of "sqs_queue_parameters");
          Elem_is (Resource [
            ("batch_size", batch_size_schema "10");
            ("maximum_batching_window_in_seconds", maximum_batching_window_in_seconds_schema) ]) ])
    ]) ].

(** ** The validation layer

    The SDK runs it before the mapper; its code is not part of this file.
    It is parametrised by the regular-expression matcher, the ARN check of
    [verify.ValidARN], [time.Parse] and the value lists of the SDK
    enumerations. *)

Section Validation.

Variable regexp_MatchString : string -> string -> bool.
Variable verify_ValidARN : string -> bool.
Variable time_Parse : string -> string -> Time.t * option string.
Variable enum_Values : enum_type -> list string.

(** Modelled from the spec: the validators of the SDK's [validation]
    package ([IntBetween], [IntInSlice], [StringLenBetween], [StringMatch],
    [All], [Any], [IsRFC3339Time]) and of the provider ([verify.ValidARN],
    [enum.Validate]).  A numeric or length bound is an inclusive range
    ("batch size 1–10000", "pattern length ≤4096"); a value of the wrong
    type is an error.  [true] means that no error is reported. *)
Fixpoint run_validator (f : validator) (x : value) {struct f} : bool :=
  match f with
  | IntBetween min max =>
    match x with VInt v => (min <=? v) && (v <=? max) | _ => false end
  | IntInSlice valid =>
    match x with VInt v => existsb (Z.eqb v) valid | _ => false end
  | StringLenBetween min max =>
    match x with
    | VString v =>
      (min <=? Z.of_nat (String.length v)) && (Z.of_nat (String.length v) <=? max)
    | _ => false
    end
  | StringMatch re =>
    match x with VString v => regexp_MatchString re v | _ => false end
  | All vs => forallb (fun g => run_validator g x) vs
  | Any vs => existsb (fun g => run_validator g x) vs
  | ValidARN =>
    match x with VString v => verify_ValidARN v | _ => false end
  | IsRFC3339Time =>
    match x with
    | VString v => match snd (time_Parse RFC3339 v) with None => true | Some _ => false end
    | _ => false
    end
  | enum_Validate ty =>
    match x with
    | VString v => existsb (String.eqb v) (enum_Values ty)
    | _ => false
    end
  end.

Definition run_optional (f : option validator) (x : value) : bool :=
  match f with Some g => run_validator g x | None => true end.

(** The items of a list or set value. *)
Definition collection_items (raw : value) : option (list value) :=
  match raw with
  | VList l => Some (slice_items l)
  | VSet l => Some l
  | _ => None
  end.

(** The fields of a block; an empty block reaches the SDK as nil. *)
Definition block_fields (raw : value) : option (gmap string value) :=
  match raw with
  | VMap (Some m) => Some m
  | VMap None | VNil => Some ∅
  | _ => None
  end.

(** Modelled from the spec: the schema validation of the SDK
    ("validation errors ... are reported synchronously at the
    schema-validation boundary"), restricted to what the schema of this file
    declares per field: the type, [Required], [MaxItems] ("filter count ≤5"),
    [ValidateFunc] and [ValidateDiagFunc].  An unset field is a missing key
    or a nil.  [ConflictsWith] is not interpreted.  [true] means that no
    error is reported. *)
Fixpoint validateType (s : Schema) (raw : value) {struct s} : bool :=
  match Type_ s with
  | TypeInvalid => false
  | TypeInt =>
    match raw with
    | VInt _ => run_optional (ValidateFunc s) raw && run_optional (ValidateDiagFunc s) raw
    | _ => false
    end
  | TypeString =>
    match raw with
    | VString _ => run_optional (ValidateFunc s) raw && run_optional (ValidateDiagFunc s) raw
    | _ => false
    end
  | TypeList | TypeSet =>
    match collection_items raw with
    | None => false
    | Some items =>
      (if decide (0 < MaxItems s ∧ MaxItems s < length items)%nat then false else true)
      && match Elem s with
         | None => true
         | Some (ElemSchema s') => forallb (validateType s') items
         | Some (Resource fields) =>
           forallb (fun item =>
             match block_fields item with
             | None => false
             | Some m =>
               forallb (fun '(k, s') =>
                 match m !! k with
                 | None | Some VNil => negb (Required s')
                 | Some x => validateType s' x
                 end) fields
             end) items
         end
    end
  end.

(** The check of one field of a block whose fields are [m]. *)
Definition field_ok (m : gmap string value) (entry : string * Schema) : bool :=
  match m !! entry.1 with
  | None | Some VNil => negb (Required entry.2)
  | Some x => validateType entry.2 x
  end.

(** The sub-schema of a nested block field, by name. *)
Definition field_schema (k : string) (s : Schema) : option Schema :=
  match Elem s with
  | Some (Resource fields) =>
    snd <$> List.find (fun '(k', _) => String.eqb k k') fields
  | _ => None
  end.

(** The validator declared for [batch_size] under a variant key. *)
Definition batch_size_validator (variant : string) : option validator :=
  s ← field_schema variant sourceParametersSchema;
  s ← field_schema "batch_size" s;
  ValidateFunc s.

End Validation.

(** ** An instance of the [time] functions

    [utc_Parse] and [utc_Format] read and write the timestamps of the shape
    [YYYY-MM-DDTHH:MM:SSZ], the UTC, whole-second form of RFC 3339; anything
    else is a parse error, returned with [time.Time{}].  They are used to run
    the mapper on concrete nodes. *)

Fixpoint parse_digits (s : string) (acc : Z) : option Z :=
  match s with
  | EmptyString => Some acc
  | String a r =>
    let n := Z.of_N (Ascii.N_of_ascii a) in
    if (48 <=? n) && (n <=? 57) then parse_digits r (10 * acc + (n - 48)) else None
  end.

Definition number_at (s : string) (start count : nat) : option Z :=
  parse_digits (String.substring start count s) 0.

Definition is_leap (y : Z) : bool :=
  (y mod 4 =? 0) && (negb (y mod 100 =? 0) || (y mod 400 =? 0)).

Definition days_in (y m : Z) : Z :=
  if m =? 2 then (if is_leap y then 29 else 28)
  else if (m =? 4) || (m =? 6) || (m =? 9) || (m =? 11) then 30 else 31.

Definition utc_fields (s : string) : option Time.t :=
  if negb (Nat.eqb (String.length s) 20) then None
  else if negb (String.eqb (String.substring 4 1 s) "-"
                && String.eqb (String.substring 7 1 s) "-"
                && String.eqb (String.substring 10 1 s) "T"
                && String.eqb (String.substring 13 1 s) ":"
                && String.eqb (String.substring 16 1 s) ":"
                && String.eqb (String.substring 19 1 s) "Z") then None
  else
    y ← number_at s 0 4; m ← number_at s 5 2; d ← number_at s 8 2;
    h ← number_at s 11 2; mi ← number_at s 14 2; sec ← number_at s 17 2;
    if (1 <=? m) && (m <=? 12) && (1 <=? d) && (d <=? days_in y m)
       && (h <=? 23) && (mi <=? 59) && (sec <=? 59)
    then Some (Time.mk y m d h mi sec 0 0)
    else None.

Definition utc_Parse (layout s : string) : Time.t * option string :=
  match utc_fields s with
  | Some t => (t, None)
  | None => (Time.zero, Some "parsing time: cannot parse")
  end.

Fixpoint decimal (width : nat) (n : Z) : string :=
  match width with
  | O => ""
  | S w =>
    decimal w (n / 10) +:+
    String (Ascii.ascii_of_N (Z.to_N (48 + n mod 10))) EmptyString
  end.

Definition utc_Format (t : Time.t) (layout : string) : string :=
  decimal 4 (Time.year t) +:+ "-" +:+ decimal 2 (Time.month t) +:+ "-" +:+
  decimal 2 (Time.day t) +:+ "T" +:+ decimal 2 (Time.hour t) +:+ ":" +:+
  decimal 2 (Time.minute t) +:+ ":" +:+ decimal 2 (Time.second t) +:+ "Z".

(** ** Configuration nodes of the seven source variants

    The values a configuration holds for one variant, every field given.  A
    credential of the managed-streaming Kafka block may be left out
    ([None]): the block is a union. *)
Inductive source_config :=
| ActiveMQBroker (batch_size : Z) (basic_auth : string)
    (maximum_batching_window_in_seconds : Z) (queue_name : string)
| DynamoDBStream (batch_size : Z) (dead_letter_arn : string)
    (maximum_batching_window_in_seconds maximum_record_age_in_seconds
       maximum_retry_attempts : Z)
    (on_partial_batch_item_failure : string) (parallelization_factor : Z)
    (starting_position : string)
| KinesisStream (batch_size : Z) (dead_letter_arn : string)
    (maximum_batching_window_in_seconds maximum_record_age_in_seconds
       maximum_retry_attempts : Z)
    (on_partial_batch_item_failure : string) (parallelization_factor : Z)
    (starting_position starting_position_timestamp : string)
| ManagedStreamingKafka (batch_size : Z) (consumer_group_id : string)
    (client_certificate_tls_auth sasl_scram_512_auth : option string)
    (maximum_batching_window_in_seconds : Z)
    (starting_position topic_name : string)
| RabbitMQBroker (batch_size : Z) (basic_auth : string)
    (maximum_batching_window_in_seconds : Z) (queue virtual_host : string)
| SelfManagedKafka (batch_size : Z) (consumer_group_id : string)
    (basic_auth : string) (maximum_batching_window_in_seconds : Z)
    (server_root_ca_certificate : string) (servers : list string)
    (starting_position topic : string) (security_groups subnets : list string)
| SqsQueue (batch_size maximum_batching_window_in_seconds : Z).

(** A nested block: a list of length 1 around the node of the block. *)
Definition block (fields : gmap string value) : value :=
  VList (Some [VMap (Some fields)]).

Definition optional_string (k : string) (v : option string)
    (m : gmap string value) : gmap string value :=
  match v with Some s => <[k := VString s]> m | None => m end.

Definition string_set (l : list string) : value := VSet (VString <$> l).

Definition stream_node (b : Z) (arn : string) (w age retry : Z) (fail : string)
    (par : Z) (pos : string) : gmap string value :=
  <["batch_size" := VInt b]> (
  <["dead_letter_config" := block (<["arn" := VString arn]> ∅)]> (
  <["maximum_batching_window_in_seconds" := VInt w]> (
  <["maximum_record_age_in_seconds" := VInt age]> (
  <["maximum_retry_attempts" := VInt retry]> (
  <["on_partial_batch_item_failure" := VString fail]> (
  <["parallelization_factor" := VInt par]> (
  <["starting_position" := VString pos]> ∅))))))).

(** The key of a variant in [source_parameters] and the node of its block. *)
Definition variant_key (c : source_config) : string :=
  match c with
  | ActiveMQBroker _ _ _ _ => "activemq_broker_parameters"
  | DynamoDBStream _ _ _ _ _ _ _ _ => "dynamodb_stream_parameters"
  | KinesisStream _ _ _ _ _ _ _ _ _ => "kinesis_stream_parameters"
  | ManagedStreamingKafka _ _ _ _ _ _ _ => "managed_streaming_kafka_parameters"
  | RabbitMQBroker _ _ _ _ _ => "rabbit_mq_broker"
  | SelfManagedKafka _ _ _ _ _ _ _ _ _ _ => "self_managed_kafka"
  | SqsQueue _ _ => "sqs_queue_parameters"
  end.

Definition variant_node (c : source_config) : gmap string value :=
  match c with
  | ActiveMQBroker b auth w q =>
    <["batch_size" := VInt b]> (
    <["credentials" := block (<["basic_auth" := VString auth]> ∅)]> (
    <["maximum_batching_window_in_seconds" := VInt w]> (
    <["queue_name" := VString q]> ∅)))
  | DynamoDBStream b arn w age retry fail par pos =>
    stream_node b arn w age retry fail par pos
  | KinesisStream b arn w age retry fail par pos ts =>
    <["starting_position_timestamp" := VString ts]>
      (stream_node b arn w age retry fail par pos)
  | ManagedStreamingKafka b group tls scram w pos topic =>
    <["batch_size" := VInt b]> (
    <["consumer_group_id" := VString group]> (
    <["credentials" := block (
        optional_string "client_certificate_tls_auth" tls (
        optional_string "sasl_scram_512_auth" scram ∅))]> (
    <["maximum_batching_window_in_seconds" := VInt w]> (
    <["starting_position" := VString pos]> (
    <["topic_name" := VString topic]> ∅)))))
  | RabbitMQBroker b auth w q vhost =>
    <["batch_size" := VInt b]> (
    <["credentials" := block (<["basic_auth" := VString auth]> ∅)]> (
    <["maximum_batching_window_in_seconds" := VInt w]> (
    <["queue" := VString q]> (
    <["virtual_host" := VString vhost]> ∅))))
  | SelfManagedKafka b group auth w ca servers pos topic sgs subnets =>
    <["batch_size" := VInt b]> (
    <["consumer_group_id" := VString group]> (
    <["credentials" := block (<["basic_auth" := VString auth]> ∅)]> (
    <["maximum_batching_window_in_seconds" := VInt w]> (
    <["server_root_ca_certificate" := VString ca]> (
    <["servers" := string_set servers]> (
    <["starting_position" := VString pos]> (
    <["topic" := VString topic]> (
    <["vpc" := block (
        <["security_groups" := string_set sgs]> (
        <["subnets" := string_set subnets]> ∅))]> ∅))))))))
  | SqsQueue b w =>
    <["batch_size" := VInt b]> (
    <["maximum_batching_window_in_seconds" := VInt w]> ∅)
  end.

Definition pattern_block (p : string) : value :=
  VMap (Some (<["pattern" := VString p]> ∅)).

(** The [filter] list of a [filter_criteria] block. *)
Definition filter_list (patterns : list string) : value :=
  VList (Some (pattern_block <$> patterns)).

(** The [source_parameters] node of a variant, with a [filter_criteria] block
    when there are patterns. *)
Definition config_node (c : source_config) (patterns : list string)
    : gmap string value :=
  let m := <[variant_key c := block (variant_node c)]> ∅ in
  match patterns with
  | [] => m
  | _ => <["filter_criteria" := block (<["filter" := filter_list patterns]> ∅)]> m
  end.

(** The stream node as the mapper returns it: every integer typed [int32],
    [on_partial_batch_item_failure] and [starting_position] with their
    enumeration types. *)
Definition returned_stream_node (b : Z) (arn : string) (w age retry : Z)
    (fail : string) (par : Z) (position : enum_type) (pos : string)
    : gmap string value :=
  <["batch_size" := VInt32 b]> (
  <["dead_letter_config" := block (<["arn" := VString arn]> ∅)]> (
  <["maximum_batching_window_in_seconds" := VInt32 w]> (
  <["maximum_record_age_in_seconds" := VInt32 age]> (
  <["maximum_retry_attempts" := VInt32 retry]> (
  <["on_partial_batch_item_failure" := VEnum OnPartialBatchItemFailureStreams fail]> (
  <["parallelization_factor" := VInt32 par]> (
  <["starting_position" := VEnum position pos]> ∅))))))).

(** The block that the round trip returns for a variant: nothing for the two
    variants that the mapper does not read, and the first credential given
    for managed-streaming Kafka. *)
Definition returned_variant_node (c : source_config)
    : option (gmap string value) :=
  match c with
  | ActiveMQBroker b auth w q => Some (
    <["batch_size" := VInt32 b]> (
    <["credentials" := block (<["basic_auth" := VString auth]> ∅)]> (
    <["maximum_batching_window_in_seconds" := VInt32 w]> (
    <["queue_name" := VString q]> ∅))))
  | DynamoDBStream b arn w age retry fail par pos => Some (
    returned_stream_node b arn w age retry fail par
      DynamoDBStreamStartPosition pos)
  | KinesisStream b arn w age retry fail par pos ts => Some (
    <["starting_position_timestamp" := VString ts]>
      (returned_stream_node b arn w age retry fail par
         KinesisStreamStartPosition pos))
  | ManagedStreamingKafka b group tls scram w pos topic => Some (
    <["batch_size" := VInt32 b]> (
    <["consumer_group_id" := VString group]> (
    <["credentials" := block (
        match tls with
        | Some s => <["client_certificate_tls_auth" := VString s]> ∅
        | None => optional_string "sasl_scram_512_auth" scram ∅
        end)]> (
    <["maximum_batching_window_in_seconds" := VInt32 w]> (
    <["starting_position" := VEnum MSKStartPosition pos]> (
    <["topic_name" := VString topic]> ∅))))))
  | RabbitMQBroker _ _ _ _ _ | SelfManagedKafka _ _ _ _ _ _ _ _ _ _ => None
  | SqsQueue b w => Some (
    <["batch_size" := VInt32 b]> (
    <["maximum_batching_window_in_seconds" := VInt32 w]> ∅))
  end.

(** The node that the round trip returns for [config_node c patterns]. *)
Definition returned_node (c : source_config) (patterns : list string)
    : gmap string value :=
  let m := match returned_variant_node c with
           | Some fields => <[variant_key c := block fields]> ∅
           | None => ∅
           end in
  match patterns with
  | [] => m
  | _ => <["filter_criteria" := block (<["filter" := filter_list patterns]> ∅)]> m
  end.

(** A non-zero integer that fits the [int32] of the API. *)
Definition set_int (n : Z) : Prop := n ≠ 0 ∧ - 2 ^ 31 <= n < 2 ^ 31.

Definition set_string (s : string) : Prop := s ≠ "".

Definition set_optional (s : option string) : Prop :=
  match s with Some s => s ≠ "" | None => True end.

(** Every field of the variant holds a value other than the zero value of its
    type. *)
Definition populated (c : source_config) : Prop :=
  match c with
  | ActiveMQBroker b auth w q =>
    set_int b ∧ set_string auth ∧ set_int w ∧ set_string q
  | DynamoDBStream b arn w age retry fail par pos =>
    set_int b ∧ set_string arn ∧ set_int w ∧ set_int age ∧ set_int retry ∧
    set_string fail ∧ set_int par ∧ set_string pos
  | KinesisStream b arn w age retry fail par pos ts =>
    set_int b ∧ set_string arn ∧ set_int w ∧ set_int age ∧ set_int retry ∧
    set_string fail ∧ set_int par ∧ set_string pos ∧ set_string ts
  | ManagedStreamingKafka b group tls scram w pos topic =>
    set_int b ∧ set_string group ∧ set_optional tls ∧ set_optional scram ∧
    (is_Some tls ∨ is_Some scram) ∧ set_int w ∧ set_string pos ∧ set_string topic
  | RabbitMQBroker b auth w q vhost =>
    set_int b ∧ set_string auth ∧ set_int w ∧ set_string q ∧ set_string vhost
  | SelfManagedKafka b group auth w ca servers pos topic sgs subnets =>
    set_int b ∧ set_string group ∧ set_string auth ∧ set_int w ∧ set_string ca ∧
    servers ≠ [] ∧ set_string pos ∧ set_string topic ∧ sgs ≠ [] ∧ subnets ≠ []
  | SqsQueue b w => set_int b ∧ set_int w
  end.

(** The variants that [expandPipeSourceParameters] and
    [flattenPipeSourceParameters] handle. *)
Definition mapped (c : source_config) : Prop :=
  match c with
  | RabbitMQBroker _ _ _ _ _ | SelfManagedKafka _ _ _ _ _ _ _ _ _ _ => False
  | _ => True
  end.

(** At most one member of a credentials union is given. *)
Definition single_credential (c : source_config) : Prop :=
  match c with
  | ManagedStreamingKafka _ _ (Some _) (Some _) _ _ _ => False
  | _ => True
  end.

(** The timestamp of a Kinesis block is the text that [Format] prints for the
    time that [time.Parse] reads from it. *)
Definition canonical_timestamp
    (time_Parse : string -> string -> Time.t * option string)
    (time_Format : Time.t -> string -> string) (c : source_config) : Prop :=
  match c with
  | KinesisStream _ _ _ _ _ _ _ _ ts =>
    time_Format (fst (time_Parse RFC3339 ts)) RFC3339 = ts
  | _ => True
  end.

(** Reading a node along a path of keys; a nested block is entered through
    the first element of its list. *)
Fixpoint lookup_path (path : list string) (v : value) : option value :=
  match path with
  | [] => Some v
  | k :: rest =>
    let inner := match v with VList (Some (x :: _)) => x | _ => v end in
    match inner with
    | VMap (Some m) =>
      match m !! k with
      | Some x => lookup_path rest x
      | None => None
      end
    | _ => None
    end
  end.

(** The typed filter that a pattern expands to. *)
Definition pattern_filter (p : string) : Filter.t := Filter.mk (Some p).

(** A nested block key holds what a [TypeList] of a [Resource] delivers: no
    list, an empty list, or a list whose first element is nil or a map. *)
Definition block_ok (v : option value) : Prop :=
  match first_block v with
  | Some (VMap _) | None => True
  | Some _ => False
  end.

(** ** Predicates on nodes and objects *)

(** An integer key set to 0, or a string key set to the empty string, leaves
    the field it feeds unset. *)
Definition unset_when_zero (tfMap : gmap string value) (k : string)
    (field : option Z) : Prop :=
  tfMap !! k = Some (VInt 0) -> field = None.

Definition unset_when_empty {A} (tfMap : gmap string value) (k : string)
    (field : option A) : Prop :=
  tfMap !! k = Some (VString "") -> field = None.

Definition zero_when_empty (tfMap : gmap string value) (k : string)
    (field : string) : Prop :=
  tfMap !! k = Some (VString "") -> field = "".

(** A list of length 1 around a nested map is unwrapped: the field is what
    the nested expander [f] makes of the map. *)
Definition unwrapped {A} (tfMap : gmap string value) (k : string)
    (field : option A) (f : tfmap -> option A) : Prop :=
  forall m, tfMap !! k = Some (VList (Some [VMap m])) -> field = f m.

(** The key is missing, holds no string, or holds the empty string. *)
Definition not_set (v : option value) : Prop :=
  forall s, v = Some (VString s) -> s = "".

(** A string key set to a non-empty string sets the field it feeds. *)
Definition set_when_given (tfMap : gmap string value) (k : string)
    (field : option string) : Prop :=
  forall s, tfMap !! k = Some (VString s) -> s ≠ "" -> field = Some s.

(** A list of length 1 around a nested map populates the nested object: the
    non-empty string under [k'] of the nested map, the keys [unset] before it
    not being set, makes the field the object [member s]. *)
Definition populated_from {A} (tfMap : gmap string value) (k : string)
    (unset : list string) (k' : string) (field : option A)
    (member : string -> A) : Prop :=
  forall m s,
    tfMap !! k = Some (VList (Some [VMap (Some m)])) ->
    Forall (fun u => not_set (m !! u)) unset ->
    m !! k' = Some (VString s) -> s ≠ "" ->
    field = Some (member s).

(** The nested objects that a non-empty string populates. *)
Definition dead_letter_to (arn : string) : DeadLetterConfig.t :=
  DeadLetterConfig.mk (Some arn).

Definition basic_auth_member (secret : string) : MQBrokerAccessCredentials :=
  MQBasicAuth (Some (MQBrokerAccessCredentialsMemberBasicAuth.mk secret)).

Definition client_certificate_member (secret : string) : MSKAccessCredentials :=
  MSKClientCertificateTlsAuth
    (Some (MSKAccessCredentialsMemberClientCertificateTlsAuth.mk secret)).

Definition sasl_scram_512_member (secret : string) : MSKAccessCredentials :=
  MSKSaslScram512Auth (Some (MSKAccessCredentialsMemberSaslScram512Auth.mk secret)).


(** A [source_parameters] node with one variant block that sets only
    [batch_size]. *)
Definition batch_size_node (variant : string) (n : Z) : gmap string value :=
  <[variant := block (<["batch_size" := VInt n]> ∅)]> ∅.

(** A [source_parameters] node with only a [filter_criteria] block. *)
Definition filter_criteria_node (patterns : list string) : gmap string value :=
  <["filter_criteria" := block (<["filter" := filter_list patterns]> ∅)]> ∅.

Definition pattern_ok (p : string) : Prop :=
  1 <= Z.of_nat (String.length p) <= 4096.

(** ** Sample nodes *)

Definition sample_arn : string :=
  "arn:aws:secretsmanager:us-east-1:123456789012:secret:pipes".

Definition sample_sqs : source_config := SqsQueue 10 5.

Definition sample_kinesis : source_config :=
  KinesisStream 100 "arn:aws:sqs:us-east-1:123456789012:dead-letters" 30 3600 3
    "AUTOMATIC_BISECT" 2 "AT_TIMESTAMP" "2023-05-01T12:30:00Z".

Definition sample_rabbit : source_config :=
  RabbitMQBroker 100 sample_arn 30 "orders" "/".

Definition sample_self_managed : source_config :=
  SelfManagedKafka 100 "group-1" sample_arn 30
    "arn:aws:secretsmanager:us-east-1:123456789012:secret:ca"
    ["broker-1.example.com:9092"] "LATEST" "orders" ["sg-0a1b2c"] ["subnet-0a1b2c"].

Definition sample_msk_both : source_config :=
  ManagedStreamingKafka 100 "group-1" (Some sample_arn) (Some sample_arn)
    30 "LATEST" "orders".

Definition malformed_kinesis : gmap string value :=
  <["starting_position" := VString "AT_TIMESTAMP"]> (
  <["starting_position_timestamp" := VString "yesterday at noon"]> ∅).

Definition both_credentials : gmap string value :=
  <["client_certificate_tls_auth" := VString sample_arn]> (
  <["sasl_scram_512_auth" :=
      VString "arn:aws:secretsmanager:us-east-1:123456789012:secret:scram"]> ∅).

Definition zero_valued : gmap string value :=
  <["batch_size" := VInt 0]> (
  <["queue_name" := VString ""]> (
  <["credentials" := block (<["basic_auth" := VString sample_arn]> ∅)]> (
  <["dead_letter_config" := block (<["arn" := VString ""]> ∅)]> ∅))).





Definition five_patterns : list string :=
  ["{ a: [1] }"; "{ b: [2] }"; "{ c: [3] }"; "{ d: [4] }"; "{ e: [5] }"].

Definition two_filters : list Filter.t :=
  [ Filter.mk (Some "{ a: [1] }"); Filter.mk None ].

(** What the mapper returns for [sample_sqs] and for [sample_msk_both]. *)
Definition sqs_returned : gmap string value :=
  <["sqs_queue_parameters" := block (
      <["batch_size" := VInt32 10]> (
      <["maximum_batching_window_in_seconds" := VInt32 5]> ∅))]> ∅.

Definition msk_returned : gmap string value :=
  <["managed_streaming_kafka_parameters" := block (
      <["batch_size" := VInt32 100]> (
      <["consumer_group_id" := VString "group-1"]> (
      <["credentials" := block (
          <["client_certificate_tls_auth" := VString sample_arn]> ∅)]> (
      <["maximum_batching_window_in_seconds" := VInt32 30]> (
      <["starting_position" := VEnum MSKStartPosition "LATEST"]> (
      <["topic_name" := VString "orders"]> ∅))))))]> ∅.

(** ** Keys, blocks and objects of the mapper *)

(** The keys that [expandPipeSourceParameters] reads and
    [flattenPipeSourceParameters] writes. *)
Definition mapper_keys : list string :=
  [ "activemq_broker_parameters"; "dynamodb_stream_parameters";
    "filter_criteria"; "kinesis_stream_parameters";
    "managed_streaming_kafka_parameters"; "sqs_queue_parameters" ].

(** The nested blocks that the per-variant expanders unwrap: the key of the
    variant and the key of the block inside it. *)
Definition nested_blocks : list (string * string) :=
  [ ("activemq_broker_parameters", "credentials");
    ("dynamodb_stream_parameters", "dead_letter_config");
    ("kinesis_stream_parameters", "dead_letter_config");
    ("managed_streaming_kafka_parameters", "credentials") ].

(** What one element of a [filter] list contributes to [expandFilters]: the
    filter of a map, nothing for any other value. *)
Definition filter_of (tfMapRaw : value) : option Filter.t :=
  match tfMapRaw with
  | VMap tfMap => expandFilter tfMap
  | _ => None
  end.

(** The block under [k], if any, is a map, and the blocks under the keys
    [inner] that its expander unwraps are nil or maps as well. *)
Definition nested_ok (k : string) (inner : list string)
    (tfMap : gmap string value) : Prop :=
  match first_block (tfMap !! k) with
  | None | Some (VMap None) => True
  | Some (VMap (Some m)) => Forall (fun k' => block_ok (m !! k')) inner
  | Some _ => False
  end.

(** The list under a key, if any, has at most one element, so that [v[0]]
    is all of it. *)
Definition whole_list (v : option value) : Prop :=
  forall l, v = Some (VList l) -> (len l <= 1)%nat.

(** Among [fields], [k'] is declared as a list of at most one block. *)
Definition single_block_field (fields : list (string * Schema)) (k' : string)
    : Prop :=
  exists i s' fields',
    fields !! i = Some (k', s') /\ Type_ s' = TypeList /\
    Elem s' = Some (Resource fields') /\ MaxItems s' = 1%nat.


(** Flatten a credentials union, then expand what came out. *)
Definition msk_credentials_back (c : MSKAccessCredentials)
    : outcome (option MSKAccessCredentials) :=
  m ← flattenMSKAccessCredentials (Some c); mret (expandMSKAccessCredentials m).

(** The member points to a non-empty secret. *)
Definition msk_secret (c : MSKAccessCredentials) : Prop :=
  match c with
  | MSKClientCertificateTlsAuth (Some a) =>
    MSKAccessCredentialsMemberClientCertificateTlsAuth.Value a ≠ ""
  | MSKSaslScram512Auth (Some a) =>
    MSKAccessCredentialsMemberSaslScram512Auth.Value a ≠ ""
  | _ => False
  end.

(** The credentials of the object are ones the flatteners can read: the
    ActiveMQ credentials are nil or the basic-auth member, and a
    managed-streaming Kafka member is not a nil pointer. *)
Definition flattenable (o : PipeSourceParameters.t) : Prop :=
  match PipeSourceParameters.ActiveMQBrokerParameters o with
  | Some a =>
    match PipeSourceActiveMQBrokerParameters.Credentials a with
    | Some (MQUnknown _) => False
    | _ => True
    end
  | None => True
  end /\
  match PipeSourceParameters.ManagedStreamingKafkaParameters o with
  | Some k =>
    match PipeSourceManagedStreamingKafkaParameters.Credentials k with
    | Some (MSKClientCertificateTlsAuth None)
    | Some (MSKSaslScram512Auth None) => False
    | _ => True
    end
  | None => True
  end.

(** *** Objects that flatten and expand give back

    A field is kept when the expander sets it again from what the flattener
    wrote: an integer pointer is nil or points to a non-zero [int32], a
    string pointer does not point to the empty string, a timestamp prints to
    a non-empty string that parses back to it. *)

Definition kept_int (field : option Z) : Prop :=
  match field with Some n => set_int n | None => True end.

Definition kept_string (field : option string) : Prop := field ≠ Some "".

Definition kept_time (time_Parse : string -> string -> Time.t * option string)
    (time_Format : Time.t -> string -> string) (field : option Time.t) : Prop :=
  match field with
  | Some t =>
    time_Format t RFC3339 ≠ "" /\
    fst (time_Parse RFC3339 (time_Format t RFC3339)) = t
  | None => True
  end.

Definition kept_if {T} (P : T -> Prop) (field : option T) : Prop :=
  match field with Some v => P v | None => True end.

Definition kept_dead_letter (field : option DeadLetterConfig.t) : Prop :=
  kept_if (fun d => kept_string (DeadLetterConfig.Arn d)) field.

Definition kept_activemq (o : PipeSourceActiveMQBrokerParameters.t) : Prop :=
  kept_int (PipeSourceActiveMQBrokerParameters.BatchSize o) /\
  match PipeSourceActiveMQBrokerParameters.Credentials o with
  | None | Some (MQBasicAuth (Some _)) => True
  | Some _ => False
  end /\
  kept_int (PipeSourceActiveMQBrokerParameters.MaximumBatchingWindowInSeconds o) /\
  kept_string (PipeSourceActiveMQBrokerParameters.QueueName o).

(** The fields that the DynamoDB and the Kinesis stream objects share. *)
Definition kept_stream {T} (batch : T -> option Z)
    (dlc : T -> option DeadLetterConfig.t)
    (window age retry par : T -> option Z) (o : T) : Prop :=
  kept_int (batch o) /\ kept_dead_letter (dlc o) /\ kept_int (window o) /\
  kept_int (age o) /\ kept_int (retry o) /\ kept_int (par o).

Definition kept_dynamodb : PipeSourceDynamoDBStreamParameters.t -> Prop :=
  kept_stream PipeSourceDynamoDBStreamParameters.BatchSize
    PipeSourceDynamoDBStreamParameters.DeadLetterConfig
    PipeSourceDynamoDBStreamParameters.MaximumBatchingWindowInSeconds
    PipeSourceDynamoDBStreamParameters.MaximumRecordAgeInSeconds
    PipeSourceDynamoDBStreamParameters.MaximumRetryAttempts
    PipeSourceDynamoDBStreamParameters.ParallelizationFactor.

Definition kept_kinesis (time_Parse : string -> string -> Time.t * option string)
    (time_Format : Time.t -> string -> string)
    (o : PipeSourceKinesisStreamParameters.t) : Prop :=
  kept_stream PipeSourceKinesisStreamParameters.BatchSize
    PipeSourceKinesisStreamParameters.DeadLetterConfig
    PipeSourceKinesisStreamParameters.MaximumBatchingWindowInSeconds
    PipeSourceKinesisStreamParameters.MaximumRecordAgeInSeconds
    PipeSourceKinesisStreamParameters.MaximumRetryAttempts
    PipeSourceKinesisStreamParameters.ParallelizationFactor o /\
  kept_time time_Parse time_Format
    (PipeSourceKinesisStreamParameters.StartingPositionTimestamp o).

Definition kept_msk (o : PipeSourceManagedStreamingKafkaParameters.t) : Prop :=
  kept_int (PipeSourceManagedStreamingKafkaParameters.BatchSize o) /\
  kept_string (PipeSourceManagedStreamingKafkaParameters.ConsumerGroupID o) /\
  kept_if msk_secret (PipeSourceManagedStreamingKafkaParameters.Credentials o) /\
  kept_int (PipeSourceManagedStreamingKafkaParameters.MaximumBatchingWindowInSeconds o) /\
  kept_string (PipeSourceManagedStreamingKafkaParameters.TopicName o).

Definition kept_sqs (o : PipeSourceSqsQueueParameters.t) : Prop :=
  kept_int (PipeSourceSqsQueueParameters.BatchSize o) /\
  kept_int (PipeSourceSqsQueueParameters.MaximumBatchingWindowInSeconds o).

(** The filter list is nil or non-empty, and no pattern points to the empty
    string. *)
Definition kept_filter_criteria (fc : FilterCriteria.t) : Prop :=
  FilterCriteria.Filters fc ≠ Some [] /\
  Forall (fun a => kept_string (Filter.Pattern a))
    (slice_items (FilterCriteria.Filters fc)).

Definition kept_object (time_Parse : string -> string -> Time.t * option string)
    (time_Format : Time.t -> string -> string) (o : PipeSourceParameters.t) : Prop :=
  kept_if kept_activemq (PipeSourceParameters.ActiveMQBrokerParameters o) /\
  kept_if kept_dynamodb (PipeSourceParameters.DynamoDBStreamParameters o) /\
  kept_if kept_filter_criteria (PipeSourceParameters.FilterCriteria o) /\
  kept_if (kept_kinesis time_Parse time_Format)
    (PipeSourceParameters.KinesisStreamParameters o) /\
  kept_if kept_msk (PipeSourceParameters.ManagedStreamingKafkaParameters o) /\
  PipeSourceParameters.RabbitMQBrokerParameters o = None /\
  PipeSourceParameters.SelfManagedKafkaParameters o = None /\
  kept_if kept_sqs (PipeSourceParameters.SqsQueueParameters o).

(** *** Sample objects *)

(** A Kinesis source with a timestamp and two filters, the second without a
    pattern. *)
Definition sample_object : PipeSourceParameters.t :=
  {| PipeSourceParameters.ActiveMQBrokerParameters := None;
     PipeSourceParameters.DynamoDBStreamParameters := None;
     PipeSourceParameters.FilterCriteria :=
       Some (FilterCriteria.mk (Some two_filters));
     PipeSourceParameters.KinesisStreamParameters :=
       Some {|
         PipeSourceKinesisStreamParameters.BatchSize := Some 100;
         PipeSourceKinesisStreamParameters.DeadLetterConfig :=
           Some (DeadLetterConfig.mk
                   (Some "arn:aws:sqs:us-east-1:123456789012:dead-letters"));
         PipeSourceKinesisStreamParameters.MaximumBatchingWindowInSeconds := Some 30;
         PipeSourceKinesisStreamParameters.MaximumRecordAgeInSeconds := Some 3600;
         PipeSourceKinesisStreamParameters.MaximumRetryAttempts := Some 3;
         PipeSourceKinesisStreamParameters.OnPartialBatchItemFailure :=
           "AUTOMATIC_BISECT";
         PipeSourceKinesisStreamParameters.ParallelizationFactor := Some 2;
         PipeSourceKinesisStreamParameters.StartingPosition := "AT_TIMESTAMP";
         PipeSourceKinesisStreamParameters.StartingPositionTimestamp :=
           Some (Time.mk 2023 5 1 12 30 0 0 0) |};
     PipeSourceParameters.ManagedStreamingKafkaParameters := None;
     PipeSourceParameters.RabbitMQBrokerParameters := None;
     PipeSourceParameters.SelfManagedKafkaParameters := None;
     PipeSourceParameters.SqsQueueParameters := None |}.


(** An ActiveMQ node with one filter. *)
Definition valid_node : gmap string value :=
  config_node (ActiveMQBroker 100 sample_arn 30 "orders") ["{ a: [1] }"].

(** A [batch_size] beyond [int32]: 2^32 + 10. *)
Definition wide_batch_size : Z := 4294967306.

(** * Properties *)

(** ** Scalars *)

Lemma int32_id n : - 2 ^ 31 <= n < 2 ^ 31 -> int32 n = n.
Proof. intros H. unfold int32. rewrite Z.mod_small; lia. Qed.

Lemma expand_int32_set n : set_int n -> expand_int32 (Some (VInt n)) = Some n.
Proof.
  intros [H1 H2]. unfold expand_int32; simpl.
  destruct (Z.eqb_spec n 0); [done|]. by rewrite int32_id.
Qed.

Lemma expand_string_set s :
  set_string s -> expand_string (Some (VString s)) = Some s.
Proof. intros H. unfold expand_string; simpl. by destruct (decide (s = "")). Qed.

Lemma expand_string_value_string s : expand_string_value (Some (VString s)) = s.
Proof. unfold expand_string_value; simpl. by destruct (decide (s = "")). Qed.

Lemma set_enum_set k ty s m :
  set_string s -> set_enum k ty s m = <[k := VEnum ty s]> m.
Proof. intros H. unfold set_enum. by destruct (decide (s = "")). Qed.

Lemma expand_time_set p s :
  set_string s -> expand_time p (Some (VString s)) = Some (fst (p RFC3339 s)).
Proof. intros H. unfold expand_time; simpl. by destruct (decide (s = "")). Qed.

(** ** The loops over filters *)

Lemma expandFilters_step_pattern acc p :
  set_string p ->
  expandFilters_step acc (pattern_block p) = append acc (pattern_filter p).
Proof.
  intros H. unfold expandFilters_step, pattern_block, expandFilter.
  by rewrite lookup_insert_eq, expand_string_set.
Qed.

Lemma expandFilters_fold ps :
  Forall set_string ps -> forall acc,
  fold_left expandFilters_step (pattern_block <$> ps) acc =
  match ps with
  | [] => acc
  | _ => Some (slice_items acc ++ (pattern_filter <$> ps))%list
  end.
Proof.
  induction 1 as [|p ps Hp Hps IH]; intros acc; [done|].
  cbn [fmap list_fmap fold_left]. rewrite expandFilters_step_pattern by done.
  rewrite IH. destruct ps; [done|].
  unfold append; cbn [slice_items]. by rewrite <- app_assoc.
Qed.

Lemma expandFilters_patterns ps :
  ps ≠ [] -> Forall set_string ps ->
  expandFilters (Some (pattern_block <$> ps)) = Some (pattern_filter <$> ps).
Proof.
  intros Hne Hall. unfold expandFilters, len. cbn [slice_items].
  rewrite length_fmap. destruct ps as [|p ps]; [done|].
  destruct (decide _) as [E|_]; [done|].
  by rewrite (expandFilters_fold (p :: ps)).
Qed.

Lemma flattenFilters_fold l : forall acc,
  fold_left (fun tfList apiObject => append tfList (VMap (flattenFilter apiObject)))
    l acc =
  match l with
  | [] => acc
  | _ => Some (slice_items acc ++ ((fun a => VMap (flattenFilter a)) <$> l))%list
  end.
Proof.
  induction l as [|a l IH]; intros acc; [done|].
  cbn [fold_left]. rewrite IH. destruct l; [done|].
  unfold append; cbn [slice_items]. by rewrite <- app_assoc.
Qed.

Lemma flattenFilters_cons a l :
  flattenFilters (Some (a :: l)) =
  Some ((fun a => VMap (flattenFilter a)) <$> (a :: l)).
Proof.
  unfold flattenFilters, len. cbn [slice_items length].
  destruct (decide _) as [E|_]; [done|].
  by rewrite flattenFilters_fold.
Qed.

Lemma flattenFilters_patterns ps :
  ps ≠ [] ->
  flattenFilters (Some (pattern_filter <$> ps)) = Some (pattern_block <$> ps).
Proof.
  intros Hne. destruct ps as [|p ps]; [done|].
  change (pattern_filter <$> p :: ps) with (pattern_filter p :: (pattern_filter <$> ps)).
  rewrite flattenFilters_cons.
  change (pattern_filter p :: (pattern_filter <$> ps)) with (pattern_filter <$> p :: ps).
  by rewrite <- list_fmap_compose.
Qed.

Lemma expandFilterCriteria_patterns ps :
  ps ≠ [] -> Forall set_string ps ->
  expandFilterCriteria (Some (<["filter" := filter_list ps]> ∅)) =
  Some (FilterCriteria.mk (Some (pattern_filter <$> ps))).
Proof.
  intros Hne Hall. unfold expandFilterCriteria, filter_list.
  rewrite lookup_insert_eq. cbn [as_list].
  destruct (decide _) as [_|E].
  - by rewrite expandFilters_patterns.
  - exfalso. apply E. unfold len; cbn [slice_items]. rewrite length_fmap.
    destruct ps; [done|]. cbn. lia.
Qed.

Lemma flattenFilterCriteria_patterns ps :
  ps ≠ [] ->
  flattenFilterCriteria (Some (FilterCriteria.mk (Some (pattern_filter <$> ps)))) =
  Some (<["filter" := filter_list ps]> ∅).
Proof.
  intros Hne. unfold flattenFilterCriteria. cbn [FilterCriteria.Filters].
  by rewrite flattenFilters_patterns.
Qed.

Lemma retype_filter_list ps : retype (filter_list ps) = filter_list ps.
Proof.
  unfold filter_list. cbn [retype option_map]. do 2 f_equal.
  induction ps as [|p ps IH]; [done|].
  cbn [fmap list_fmap List.map]. cbn [fmap] in IH. rewrite IH. reflexivity.
Qed.

Lemma config_node_cons c p ps :
  config_node c (p :: ps) =
  <["filter_criteria" := block (<["filter" := filter_list (p :: ps)]> ∅)]>
    (<[variant_key c := block (variant_node c)]> ∅).
Proof. reflexivity. Qed.

(** ** Proof steps shared by the statements about whole nodes *)

(** Evaluate the lookups of literal keys in maps built from inserts. *)
Ltac lookups :=
  with_strategy transparent [gmap_empty]
    (repeat match goal with
            | |- context [@lookup string value (gmap string value) _ ?k ?m] =>
              let r := eval lazy head in (m !! k) in
              change (m !! k) with r
            end).

(** Run the binds and the guards of nested blocks on known values. *)
Ltac binds :=
  cbn [expand_block first_block as_list assert_map mbind outcome_bind mret
       outcome_ret block wrap set_block set_if].

(** Expand the scalars that the hypotheses say are set. *)
Ltac values :=
  rewrite ?expand_int32_set, ?expand_string_set, ?expand_string_value_string,
    ?expand_time_set by done.

(** Push [retype] through the inserts of a node. *)
Ltac retyped :=
  cbn [retype option_map List.map];
  repeat (rewrite ?fmap_insert, ?fmap_empty, ?retype_filter_list;
          progress cbn [retype option_map List.map wrap block]).

Create HintDb mapper.

#[local] Hint Unfold roundtrip expandPipeSourceParameters
  expandPipeSourceActiveMQBrokerParameters expandPipeSourceDynamoDBStreamParameters
  expandPipeSourceKinesisStreamParameters
  expandPipeSourceManagedStreamingKafkaParameters
  expandPipeSourceSqsQueueParameters expandMQBrokerAccessCredentialsMemberBasicAuth
  expandMSKAccessCredentials expandDeadLetterConfig
  variant_key variant_node stream_node optional_string : mapper.

(** Unfold the expanders met on the way down a node and run them. *)
Ltac expanded :=
  repeat (progress (autounfold with mapper; lookups; values; binds)).

(** Run the flatteners on the object that came out. *)
Ltac flattened :=
  unfold flattenPipeSourceParameters; cbn -[flattenFilterCriteria];
  rewrite ?flattenFilterCriteria_patterns by done;
  rewrite ?set_enum_set by done;
  rewrite ?decide_False by done.

(** Compare the node that came out with the expected one, the timestamp
    being the text that [Format] prints. *)
Ltac returns :=
  try match goal with H : _ = _ |- _ => rewrite H end; reflexivity.

(** ** Round trip *)

(** C1 (as amended).  For each of the five variants that the mapper handles
    (ActiveMQ broker, DynamoDB stream, Kinesis stream, managed-streaming
    Kafka, SQS queue), a node whose fields are all set (integers non-zero
    and within int32, strings non-empty, one Kafka credential, a timestamp in
    the form [Format] prints it), with or without filter patterns, expands
    and flattens without panic to [returned_node]: the node with the same
    keys and contents in which every integer is typed int32 and
    [on_partial_batch_item_failure] and [starting_position] carry their
    enumeration type.  That node equals the original once every int32 is
    read as an int and every enumeration value as a string. *)
Theorem roundtrip_mapped_variants time_Parse time_Format c patterns :
  populated c -> mapped c -> single_credential c ->
  canonical_timestamp time_Parse time_Format c ->
  Forall set_string patterns ->
  roundtrip time_Parse time_Format (Some (config_node c patterns))
    = Returned (Some (returned_node c patterns)) /\
  retype (VMap (Some (returned_node c patterns)))
    = VMap (Some (config_node c patterns)).
Proof.
  intros Hp Hm Hs Ht Hps.
  assert (Hnode : exists fc : gmap string value -> gmap string value,
    (forall m, match patterns with
               | [] => m
               | _ => <["filter_criteria" :=
                          block (<["filter" := filter_list patterns]> ∅)]> m
               end = fc m) /\
    (fc = id \/ exists qs, qs ≠ [] /\ Forall set_string qs /\
       fc = insert "filter_criteria" (block (<["filter" := filter_list qs]> ∅)))).
  { destruct patterns as [|q qs].
    - exists id. split; [done|by left].
    - eexists. split; [reflexivity|]. right. by exists (q :: qs). }
  destruct Hnode as (fc & Hfc' & Hfc).
  unfold returned_node, config_node. cbn zeta. rewrite !Hfc'. clear Hfc'.
  destruct c as [b a w q|b arn w age retry fail par pos
                |b arn w age retry fail par pos ts
                |b g [tls|] [scram|] w pos topic| | |b w];
    try done; cbn in Hp, Ht; destruct_and?;
    try (match goal with
         | H : is_Some None ∨ _ |- _ => by destruct H as [[??]|[??]]
         end);
    (destruct Hfc as [->|(qs & Hne & Hqs & ->)]; unfold id;
     (split;
      [ try (expanded; rewrite expandFilterCriteria_patterns by done);
        expanded; flattened; returns
      | unfold returned_variant_node, returned_stream_node; retyped; reflexivity ])).
Qed.

(** A Kinesis node with one filter pattern, under [utc_Parse] and
    [utc_Format]: [batch_size] comes back as the int32 100 and
    [starting_position] as a [KinesisStreamStartPosition]. *)
Lemma roundtrip_mapped_variants_witness :
  roundtrip utc_Parse utc_Format
    (Some (config_node sample_kinesis ["{ source: [orders] }"]))
    = Returned (Some (returned_node sample_kinesis ["{ source: [orders] }"])) /\
  retype (VMap (Some (returned_node sample_kinesis ["{ source: [orders] }"]))) =
    VMap (Some (config_node sample_kinesis ["{ source: [orders] }"])) /\
  lookup_path ["kinesis_stream_parameters"; "batch_size"]
    (VMap (Some (returned_node sample_kinesis ["{ source: [orders] }"])))
    = Some (VInt32 100) /\
  lookup_path ["kinesis_stream_parameters"; "starting_position"]
    (VMap (Some (returned_node sample_kinesis ["{ source: [orders] }"])))
    = Some (VEnum KinesisStreamStartPosition "AT_TIMESTAMP").
Proof.
  destruct (roundtrip_mapped_variants utc_Parse utc_Format sample_kinesis
              ["{ source: [orders] }"]) as [Hr Hb].
  - cbn. unfold set_int, set_string. repeat split; (lia || done).
  - exact I.
  - exact I.
  - vm_compute. reflexivity.
  - repeat constructor. done.
  - split; [exact Hr|]. split; [exact Hb|].
    split; vm_compute; reflexivity.
Defined.

(** C1 (as stated) fails.  A populated SQS node comes back with its integers
    typed int32, so it is not the node that went in; a populated RabbitMQ or
    self-managed Kafka node comes back empty, the mapper not reading these
    two keys; a managed-streaming Kafka node with both credentials comes
    back without the SASL/SCRAM-512 one. *)
Lemma roundtrip_not_identity :
  (populated sample_sqs /\
   roundtrip utc_Parse utc_Format (Some (config_node sample_sqs []))
     = Returned (Some sqs_returned) /\
   sqs_returned ≠ config_node sample_sqs []) /\
  (populated sample_rabbit /\ populated sample_self_managed /\
   roundtrip utc_Parse utc_Format (Some (config_node sample_rabbit []))
     = Returned (Some ∅) /\
   roundtrip utc_Parse utc_Format (Some (config_node sample_self_managed []))
     = Returned (Some ∅) /\
   (∅ : gmap string value) ≠ config_node sample_rabbit [] /\
   (∅ : gmap string value) ≠ config_node sample_self_managed []) /\
  (populated sample_msk_both /\
   roundtrip utc_Parse utc_Format (Some (config_node sample_msk_both []))
     = Returned (Some msk_returned) /\
   retype (VMap (Some msk_returned)) ≠ VMap (Some (config_node sample_msk_both []))).
Proof.
  split; [|split].
  - split; [cbn; unfold set_int; lia|].
    split; [vm_compute; reflexivity|].
    intros H.
    apply (f_equal (fun m =>
      lookup_path ["sqs_queue_parameters"; "batch_size"] (VMap (Some m)))) in H.
    vm_compute in H. discriminate H.
  - split; [cbn; unfold set_int, set_string; repeat split; (lia || done)|].
    split; [cbn; unfold set_int, set_string; repeat split; (lia || done)|].
    split; [vm_compute; reflexivity|]. split; [vm_compute; reflexivity|].
    split; intros H.
    + apply (f_equal (fun m =>
        lookup_path ["rabbit_mq_broker"; "queue"] (VMap (Some m)))) in H.
      vm_compute in H. discriminate H.
    + apply (f_equal (fun m =>
        lookup_path ["self_managed_kafka"; "topic"] (VMap (Some m)))) in H.
      vm_compute in H. discriminate H.
  - split.
    { cbn. unfold set_int, set_string, sample_arn.
      repeat split; try (lia || done). left. eauto. }
    split; [vm_compute; reflexivity|].
    intros H.
    apply (f_equal (lookup_path
      ["managed_streaming_kafka_parameters"; "credentials"; "sasl_scram_512_auth"]))
      in H.
    vm_compute in H. discriminate H.
Qed.

(** ** Nested blocks *)

Lemma expand_block_pure {A} (f : tfmap -> option A) v :
  block_ok v ->
  expand_block (fun m => mret (f m)) v =
  Returned (match first_block v with Some (VMap m) => f m | _ => None end).
Proof.
  unfold block_ok, expand_block. destruct (first_block v) as [[]|]; done.
Qed.







Lemma utc_Parse_error_zero layout v e :
  snd (utc_Parse layout v) = Some e -> fst (utc_Parse layout v) = Time.zero.
Proof. unfold utc_Parse. by destruct (utc_fields v). Qed.

(** ** Timestamps *)

(** C2.  When [time.Parse] returns the zero time with its errors, a Kinesis
    node whose [starting_position_timestamp] is a non-empty string that does
    not parse expands without panic, and [StartingPositionTimestamp] is a
    pointer to the zero time: not nil, and no error comes out. *)
Theorem expand_kinesis_malformed_timestamp
    time_Parse (tfMap : gmap string value) s err :
  (forall layout v e,
     snd (time_Parse layout v) = Some e -> fst (time_Parse layout v) = Time.zero) ->
  block_ok (tfMap !! "dead_letter_config") ->
  tfMap !! "starting_position_timestamp" = Some (VString s) ->
  s ≠ "" ->
  snd (time_Parse RFC3339 s) = Some err ->
  exists apiObject,
    expandPipeSourceKinesisStreamParameters time_Parse (Some tfMap)
      = Returned (Some apiObject) /\
    PipeSourceKinesisStreamParameters.StartingPositionTimestamp apiObject
      = Some Time.zero.
Proof.
  intros Hzero Hdlc Hts Hs Herr.
  unfold expandPipeSourceKinesisStreamParameters.
  rewrite expand_block_pure by done. cbn [mbind outcome_bind mret outcome_ret].
  eexists. split; [reflexivity|].
  cbn [PipeSourceKinesisStreamParameters.StartingPositionTimestamp].
  rewrite Hts, expand_time_set by done. f_equal. eauto.
Qed.

(** The timestamp "yesterday at noon" under [utc_Parse]. *)
Lemma expand_kinesis_malformed_timestamp_witness :
  exists apiObject,
    expandPipeSourceKinesisStreamParameters utc_Parse (Some malformed_kinesis)
      = Returned (Some apiObject) /\
    PipeSourceKinesisStreamParameters.StartingPositionTimestamp apiObject
      = Some Time.zero.
Proof.
  apply (expand_kinesis_malformed_timestamp utc_Parse malformed_kinesis
           "yesterday at noon" "parsing time: cannot parse").
  - apply utc_Parse_error_zero.
  - vm_compute. exact I.
  - vm_compute. reflexivity.
  - done.
  - vm_compute. reflexivity.
Defined.

(** ** Credentials *)

(** C3.  When both [client_certificate_tls_auth] and [sasl_scram_512_auth]
    are non-empty strings, [expandMSKAccessCredentials] returns the
    client-certificate member with the first value; the result is not the
    SASL/SCRAM-512 member, whatever the second value. *)
Theorem expandMSKAccessCredentials_first_wins
    (tfMap : gmap string value) tls scram :
  tfMap !! "client_certificate_tls_auth" = Some (VString tls) -> tls ≠ "" ->
  tfMap !! "sasl_scram_512_auth" = Some (VString scram) -> scram ≠ "" ->
  expandMSKAccessCredentials (Some tfMap) =
    Some (MSKClientCertificateTlsAuth
      (Some {| MSKAccessCredentialsMemberClientCertificateTlsAuth.Value := tls |})) /\
  forall p, expandMSKAccessCredentials (Some tfMap) ≠ Some (MSKSaslScram512Auth p).
Proof.
  intros Htls Hne _ _. unfold expandMSKAccessCredentials.
  rewrite Htls, expand_string_set by done.
  split; [done|]. intros p H. discriminate H.
Qed.

(** A credentials block with two secrets. *)
Lemma expandMSKAccessCredentials_first_wins_witness :
  expandMSKAccessCredentials (Some both_credentials) =
    Some (MSKClientCertificateTlsAuth
      (Some {| MSKAccessCredentialsMemberClientCertificateTlsAuth.Value :=
                 sample_arn |})) /\
  forall p,
    expandMSKAccessCredentials (Some both_credentials) ≠ Some (MSKSaslScram512Auth p).
Proof.
  apply (expandMSKAccessCredentials_first_wins both_credentials sample_arn
           "arn:aws:secretsmanager:us-east-1:123456789012:secret:scram").
  - vm_compute. reflexivity.
  - done.
  - vm_compute. reflexivity.
  - done.
Defined.

(** ** Nil objects *)

(** C4.  Every flattener returns nil on a nil object (a nil pointer, a nil
    slice, a nil interface), without panic. *)
Theorem flatten_nil time_Format :
  flattenPipeSourceParameters time_Format None = Returned None /\
  flattenPipeSourceActiveMQBrokerParameters None = Returned None /\
  flattenPipeSourceDynamoDBStreamParameters None = None /\
  flattenPipeSourceKinesisStreamParameters time_Format None = None /\
  flattenPipeSourceManagedStreamingKafkaParameters None = Returned None /\
  flattenPipeSourceSqsQueueParameters None = None /\
  flattenFilterCriteria None = None /\
  flattenFilters None = None /\
  flattenDeadLetterConfig None = None /\
  flattenMQBrokerAccessCredentialsMemberBasicAuth None = None /\
  flattenMSKAccessCredentials None = Returned None.
Proof. repeat split. Qed.

(** ** Zero values and list wrappers *)

Lemma expand_string_not_set v : not_set v -> expand_string v = None.
Proof.
  intros H. destruct v as [[]|]; try done. cbn.
  destruct (decide _) as [|Hne]; [done|]. destruct Hne. by apply H.
Qed.

Lemma expandDeadLetterConfig_given (m : gmap string value) s :
  m !! "arn" = Some (VString s) -> s ≠ "" ->
  expandDeadLetterConfig (Some m) = Some (dead_letter_to s).
Proof.
  intros Hm Hs. unfold expandDeadLetterConfig. by rewrite Hm, expand_string_set.
Qed.

Lemma expandMQBasicAuth_given (m : gmap string value) s :
  m !! "basic_auth" = Some (VString s) ->
  expandMQBrokerAccessCredentialsMemberBasicAuth (Some m)
    = Some (basic_auth_member s).
Proof.
  intros Hm. unfold expandMQBrokerAccessCredentialsMemberBasicAuth.
  by rewrite Hm, expand_string_value_string.
Qed.

Lemma expandMSK_client_certificate (m : gmap string value) s :
  m !! "client_certificate_tls_auth" = Some (VString s) -> s ≠ "" ->
  expandMSKAccessCredentials (Some m) = Some (client_certificate_member s).
Proof.
  intros Hm Hs. unfold expandMSKAccessCredentials. by rewrite Hm, expand_string_set.
Qed.

Lemma expandMSK_sasl_scram_512 (m : gmap string value) s :
  not_set (m !! "client_certificate_tls_auth") ->
  m !! "sasl_scram_512_auth" = Some (VString s) -> s ≠ "" ->
  expandMSKAccessCredentials (Some m) = Some (sasl_scram_512_member s).
Proof.
  intros Hn Hm Hs. unfold expandMSKAccessCredentials.
  by rewrite (expand_string_not_set _ Hn), Hm, expand_string_set.
Qed.

(** Each conjunct rewrites with the key's value and computes. *)
Ltac zero_cases :=
  repeat split;
  try (intros ? ->; reflexivity);
  try (intros ->; reflexivity).

(** A nested block of length 1: run the guard, then the nested expander on
    what the nested map holds. *)
Ltac nested_cases :=
  try (intros m s -> Hunset Hm Hs; cbn [first_block as_list];
       first [ exact (expandDeadLetterConfig_given m s Hm Hs)
             | exact (expandMQBasicAuth_given m s Hm)
             | exact (expandMSK_client_certificate m s Hm Hs)
             | apply Forall_inv in Hunset;
               exact (expandMSK_sasl_scram_512 m s Hunset Hm Hs) ]).

(** C5.  On a map whose nested block keys hold what the schema delivers,
    every per-variant expander (and the expanders of the nested blocks)
    returns an object on which an integer key equal to 0 and a string key
    equal to the empty string leave their field unset (a nil pointer, the
    empty enumeration value), and a list of length 1 around a nested map
    feeds that map to the nested expander, which populates the nested
    object: a non-empty [arn] gives the dead-letter configuration with that
    ARN, [basic_auth] the basic-auth member with that secret, and a non-empty
    [client_certificate_tls_auth], or with none a non-empty
    [sasl_scram_512_auth], the credentials member with that secret. *)
Theorem expand_leaves_zero_values_unset time_Parse (tfMap : gmap string value) :
  block_ok (tfMap !! "credentials") ->
  block_ok (tfMap !! "dead_letter_config") ->
  (exists o,
     expandPipeSourceActiveMQBrokerParameters (Some tfMap) = Returned (Some o) /\
     unset_when_zero tfMap "batch_size"
       (PipeSourceActiveMQBrokerParameters.BatchSize o) /\
     unwrapped tfMap "credentials"
       (PipeSourceActiveMQBrokerParameters.Credentials o)
       expandMQBrokerAccessCredentialsMemberBasicAuth /\
     populated_from tfMap "credentials" [] "basic_auth"
       (PipeSourceActiveMQBrokerParameters.Credentials o) basic_auth_member /\
     unset_when_zero tfMap "maximum_batching_window_in_seconds"
       (PipeSourceActiveMQBrokerParameters.MaximumBatchingWindowInSeconds o) /\
     unset_when_empty tfMap "queue_name"
       (PipeSourceActiveMQBrokerParameters.QueueName o)) /\
  (exists o,
     expandPipeSourceDynamoDBStreamParameters (Some tfMap) = Returned (Some o) /\
     unset_when_zero tfMap "batch_size"
       (PipeSourceDynamoDBStreamParameters.BatchSize o) /\
     unwrapped tfMap "dead_letter_config"
       (PipeSourceDynamoDBStreamParameters.DeadLetterConfig o)
       expandDeadLetterConfig /\
     populated_from tfMap "dead_letter_config" [] "arn"
       (PipeSourceDynamoDBStreamParameters.DeadLetterConfig o) dead_letter_to /\
     unset_when_zero tfMap "maximum_batching_window_in_seconds"
       (PipeSourceDynamoDBStreamParameters.MaximumBatchingWindowInSeconds o) /\
     unset_when_zero tfMap "maximum_record_age_in_seconds"
       (PipeSourceDynamoDBStreamParameters.MaximumRecordAgeInSeconds o) /\
     unset_when_zero tfMap "maximum_retry_attempts"
       (PipeSourceDynamoDBStreamParameters.MaximumRetryAttempts o) /\
     zero_when_empty tfMap "on_partial_batch_item_failure"
       (PipeSourceDynamoDBStreamParameters.OnPartialBatchItemFailure o) /\
     unset_when_zero tfMap "parallelization_factor"
       (PipeSourceDynamoDBStreamParameters.ParallelizationFactor o) /\
     zero_when_empty tfMap "starting_position"
       (PipeSourceDynamoDBStreamParameters.StartingPosition o)) /\
  (exists o,
     expandPipeSourceKinesisStreamParameters time_Parse (Some tfMap)
       = Returned (Some o) /\
     unset_when_zero tfMap "batch_size"
       (PipeSourceKinesisStreamParameters.BatchSize o) /\
     unwrapped tfMap "dead_letter_config"
       (PipeSourceKinesisStreamParameters.DeadLetterConfig o)
       expandDeadLetterConfig /\
     populated_from tfMap "dead_letter_config" [] "arn"
       (PipeSourceKinesisStreamParameters.DeadLetterConfig o) dead_letter_to /\
     unset_when_zero tfMap "maximum_batching_window_in_seconds"
       (PipeSourceKinesisStreamParameters.MaximumBatchingWindowInSeconds o) /\
     unset_when_zero tfMap "maximum_record_age_in_seconds"
       (PipeSourceKinesisStreamParameters.MaximumRecordAgeInSeconds o) /\
     unset_when_zero tfMap "maximum_retry_attempts"
       (PipeSourceKinesisStreamParameters.MaximumRetryAttempts o) /\
     zero_when_empty tfMap "on_partial_batch_item_failure"
       (PipeSourceKinesisStreamParameters.OnPartialBatchItemFailure o) /\
     unset_when_zero tfMap "parallelization_factor"
       (PipeSourceKinesisStreamParameters.ParallelizationFactor o) /\
     zero_when_empty tfMap "starting_position"
       (PipeSourceKinesisStreamParameters.StartingPosition o) /\
     unset_when_empty tfMap "starting_position_timestamp"
       (PipeSourceKinesisStreamParameters.StartingPositionTimestamp o)) /\
  (exists o,
     expandPipeSourceManagedStreamingKafkaParameters (Some tfMap)
       = Returned (Some o) /\
     unset_when_zero tfMap "batch_size"
       (PipeSourceManagedStreamingKafkaParameters.BatchSize o) /\
     unset_when_empty tfMap "consumer_group_id"
       (PipeSourceManagedStreamingKafkaParameters.ConsumerGroupID o) /\
     unwrapped tfMap "credentials"
       (PipeSourceManagedStreamingKafkaParameters.Credentials o)
       expandMSKAccessCredentials /\
     populated_from tfMap "credentials" [] "client_certificate_tls_auth"
       (PipeSourceManagedStreamingKafkaParameters.Credentials o)
       client_certificate_member /\
     populated_from tfMap "credentials" ["client_certificate_tls_auth"]
       "sasl_scram_512_auth"
       (PipeSourceManagedStreamingKafkaParameters.Credentials o)
       sasl_scram_512_member /\
     unset_when_zero tfMap "maximum_batching_window_in_seconds"
       (PipeSourceManagedStreamingKafkaParameters.MaximumBatchingWindowInSeconds o) /\
     zero_when_empty tfMap "starting_position"
       (PipeSourceManagedStreamingKafkaParameters.StartingPosition o) /\
     unset_when_empty tfMap "topic_name"
       (PipeSourceManagedStreamingKafkaParameters.TopicName o)) /\
  (exists o,
     expandPipeSourceSqsQueueParameters (Some tfMap) = Some o /\
     unset_when_zero tfMap "batch_size"
       (PipeSourceSqsQueueParameters.BatchSize o) /\
     unset_when_zero tfMap "maximum_batching_window_in_seconds"
       (PipeSourceSqsQueueParameters.MaximumBatchingWindowInSeconds o)) /\
  (exists o,
     expandDeadLetterConfig (Some tfMap) = Some o /\
     unset_when_empty tfMap "arn" (DeadLetterConfig.Arn o) /\
     set_when_given tfMap "arn" (DeadLetterConfig.Arn o)) /\
  (exists o,
     expandFilter (Some tfMap) = Some o /\
     unset_when_empty tfMap "pattern" (Filter.Pattern o) /\
     set_when_given tfMap "pattern" (Filter.Pattern o)) /\
  (exists p,
     expandMQBrokerAccessCredentialsMemberBasicAuth (Some tfMap)
       = Some (MQBasicAuth (Some p)) /\
     zero_when_empty tfMap "basic_auth"
       (MQBrokerAccessCredentialsMemberBasicAuth.Value p) /\
     (forall s, tfMap !! "basic_auth" = Some (VString s) ->
        MQBrokerAccessCredentialsMemberBasicAuth.Value p = s)) /\
  (tfMap !! "client_certificate_tls_auth" = Some (VString "") ->
   tfMap !! "sasl_scram_512_auth" = Some (VString "") ->
   expandMSKAccessCredentials (Some tfMap) = None) /\
  (forall s, tfMap !! "client_certificate_tls_auth" = Some (VString s) ->
     s ≠ "" ->
     expandMSKAccessCredentials (Some tfMap) = Some (client_certificate_member s)) /\
  (forall s, not_set (tfMap !! "client_certificate_tls_auth") ->
     tfMap !! "sasl_scram_512_auth" = Some (VString s) -> s ≠ "" ->
     expandMSKAccessCredentials (Some tfMap) = Some (sasl_scram_512_member s)).
Proof.
  intros Hcred Hdlc.
  repeat apply conj.
  - unfold expandPipeSourceActiveMQBrokerParameters.
    rewrite expand_block_pure by done. cbn [mbind outcome_bind mret outcome_ret].
    eexists. split; [reflexivity|].
    unfold unset_when_zero, unset_when_empty, unwrapped, populated_from; cbn.
    zero_cases; nested_cases.
  - unfold expandPipeSourceDynamoDBStreamParameters.
    rewrite expand_block_pure by done. cbn [mbind outcome_bind mret outcome_ret].
    eexists. split; [reflexivity|].
    unfold unset_when_zero, unset_when_empty, zero_when_empty, unwrapped,
      populated_from; cbn.
    zero_cases; nested_cases.
  - unfold expandPipeSourceKinesisStreamParameters.
    rewrite expand_block_pure by done. cbn [mbind outcome_bind mret outcome_ret].
    eexists. split; [reflexivity|].
    unfold unset_when_zero, unset_when_empty, zero_when_empty, unwrapped,
      populated_from; cbn.
    zero_cases; nested_cases.
  - unfold expandPipeSourceManagedStreamingKafkaParameters.
    rewrite expand_block_pure by done. cbn [mbind outcome_bind mret outcome_ret].
    eexists. split; [reflexivity|].
    unfold unset_when_zero, unset_when_empty, zero_when_empty, unwrapped,
      populated_from; cbn.
    zero_cases; nested_cases.
  - unfold expandPipeSourceSqsQueueParameters. eexists. split; [reflexivity|].
    unfold unset_when_zero; cbn. zero_cases.
  - unfold expandDeadLetterConfig. eexists. split; [reflexivity|].
    unfold unset_when_empty, set_when_given; cbn. zero_cases.
    intros s -> Hs. by apply expand_string_set.
  - unfold expandFilter. eexists. split; [reflexivity|].
    unfold unset_when_empty, set_when_given; cbn. zero_cases.
    intros s -> Hs. by apply expand_string_set.
  - unfold expandMQBrokerAccessCredentialsMemberBasicAuth.
    eexists. split; [reflexivity|]. unfold zero_when_empty; cbn. zero_cases.
    intros s ->. apply expand_string_value_string.
  - unfold expandMSKAccessCredentials. intros -> ->. reflexivity.
  - intros s. apply expandMSK_client_certificate.
  - intros s. apply expandMSK_sasl_scram_512.
Qed.

(** An ActiveMQ block with [batch_size] 0, an empty [queue_name] and a
    credentials block. *)
Lemma expand_leaves_zero_values_unset_witness :
  exists o,
    expandPipeSourceActiveMQBrokerParameters (Some zero_valued) = Returned (Some o) /\
    PipeSourceActiveMQBrokerParameters.BatchSize o = None /\
    PipeSourceActiveMQBrokerParameters.QueueName o = None /\
    PipeSourceActiveMQBrokerParameters.Credentials o =
      Some (MQBasicAuth (Some
        {| MQBrokerAccessCredentialsMemberBasicAuth.Value := sample_arn |})).
Proof.
  assert (Hc : block_ok (zero_valued !! "credentials")) by (vm_compute; exact I).
  assert (Hd : block_ok (zero_valued !! "dead_letter_config"))
    by (vm_compute; exact I).
  destruct (expand_leaves_zero_values_unset utc_Parse zero_valued Hc Hd)
    as [(o & Ho & Hb & _ & Hp & _ & Hq) _].
  exists o. split; [exact Ho|]. split; [|split].
  - apply Hb. vm_compute. reflexivity.
  - apply Hq. vm_compute. reflexivity.
  - apply (Hp (<["basic_auth" := VString sample_arn]> ∅) sample_arn).
    + vm_compute. reflexivity.
    + constructor.
    + vm_compute. reflexivity.
    + discriminate.
Defined.

(** ** Co-presence of variants *)




(** ** The declared bounds *)

(** Check the fields of a block one by one: look the keys up and read
    [Required] off the schema. *)
Ltac fields_checked :=
  cbn [forallb]; unfold field_ok; cbn [fst snd]; lookups; unfold block;
  cbn beta iota;
  repeat match goal with
         | |- context [Required ?s] =>
           let b := eval vm_compute in (Required s) in
           change (Required s) with b
         end;
  cbn [negb andb].

(** Read the validators off the schema. *)
Ltac validators :=
  repeat match goal with
         | |- context [ValidateFunc ?s] =>
           let b := eval vm_compute in (ValidateFunc s) in
           change (ValidateFunc s) with b
         | |- context [ValidateDiagFunc ?s] =>
           let b := eval vm_compute in (ValidateDiagFunc s) in
           change (ValidateDiagFunc s) with b
         end;
  cbn [run_optional].

Section Bounds.

Variable regexp_MatchString : string -> string -> bool.
Variable verify_ValidARN : string -> bool.
Variable time_Parse : string -> string -> Time.t * option string.
Variable enum_Values : enum_type -> list string.

Abbreviation run :=
  (run_validator regexp_MatchString verify_ValidARN time_Parse enum_Values).
Abbreviation validate :=
  (validateType regexp_MatchString verify_ValidARN time_Parse enum_Values).
Abbreviation check_field :=
  (field_ok regexp_MatchString verify_ValidARN time_Parse enum_Values).
Abbreviation optional :=
  (run_optional regexp_MatchString verify_ValidARN time_Parse enum_Values).

Lemma IntBetween_spec lo hi n :
  run (IntBetween lo hi) (VInt n) = true <-> lo <= n <= hi.
Proof. cbn. rewrite andb_true_iff, !Z.leb_le. done. Qed.

Lemma validate_items s fields items :
  Type_ s = TypeList -> Elem s = Some (Resource fields) ->
  validate s (VList (Some items)) =
  (if decide (0 < MaxItems s ∧ MaxItems s < length items)%nat then false else true)
  && forallb (fun item =>
       match block_fields item with
       | None => false
       | Some m => forallb (check_field m) fields
       end) items.
Proof.
  destruct s; cbn. intros -> ->. cbn. f_equal.
  induction items as [|item items IH]; [done|].
  cbn [forallb]. f_equal; [|exact IH].
  destruct (block_fields item) as [m|]; [|done].
  clear. induction fields as [|[k s'] fields IH]; [done|].
  cbn [forallb]. by rewrite IH.
Qed.

Lemma validate_block s fields m :
  Type_ s = TypeList -> Elem s = Some (Resource fields) -> MaxItems s = 1%nat ->
  validate s (VList (Some [VMap (Some m)])) = forallb (check_field m) fields.
Proof.
  intros Ht He Hm. rewrite (validate_items s fields) by done.
  rewrite Hm. cbn. by rewrite andb_true_r.
Qed.

Lemma validate_int s n :
  Type_ s = TypeInt ->
  validate s (VInt n) =
  optional (ValidateFunc s) (VInt n) && optional (ValidateDiagFunc s) (VInt n).
Proof. destruct s; cbn. by intros ->. Qed.

Lemma validate_string s v :
  Type_ s = TypeString ->
  validate s (VString v) =
  optional (ValidateFunc s) (VString v) && optional (ValidateDiagFunc s) (VString v).
Proof. destruct s; cbn. by intros ->. Qed.

Lemma validate_sqs_batch_size n :
  validate sourceParametersSchema (block (batch_size_node "sqs_queue_parameters" n))
  = run (IntBetween 1 10000) (VInt n).
Proof.
  unfold batch_size_node, block.
  erewrite validate_block; [|reflexivity..]. fields_checked.
  erewrite validate_block; [|reflexivity..]. fields_checked.
  rewrite validate_int by reflexivity. validators.
  rewrite !andb_true_r. reflexivity.
Qed.

Lemma validate_patterns ps :
  forallb (fun item =>
       match block_fields item with
       | None => false
       | Some m => forallb (check_field m) [("pattern",
           schema [ Type_is TypeString; Required_is true;
                    ValidateFunc_is (StringLenBetween 1 4096) ])]
       end) (pattern_block <$> ps) = true <-> Forall pattern_ok ps.
Proof.
  induction ps as [|p ps IH].
  - split; [constructor|done].
  - cbn [fmap list_fmap forallb]. rewrite andb_true_iff.
    cbn [fmap] in IH. rewrite IH.
    rewrite Forall_cons. apply and_iff_compat_r.
    unfold pattern_block. cbn [block_fields]. fields_checked.
    rewrite validate_string by reflexivity. validators.
    rewrite !andb_true_r. cbn. rewrite andb_true_iff, !Z.leb_le. done.
Qed.

Lemma validate_filter_criteria ps :
  validate sourceParametersSchema (block (filter_criteria_node ps)) = true <->
  (length ps <= 5)%nat /\ Forall pattern_ok ps.
Proof.
  unfold filter_criteria_node, block, filter_list.
  erewrite validate_block; [|reflexivity..]. fields_checked.
  erewrite validate_block; [|reflexivity..]. fields_checked.
  erewrite validate_items; [|reflexivity..].
  rewrite !andb_true_r, andb_true_iff.
  rewrite validate_patterns.
  apply and_iff_compat_r. rewrite length_fmap.
  change (MaxItems _) with 5%nat.
  destruct (decide _) as [H|H]; split; intros; (done || lia).
Qed.

(** C7.  Under each of the seven variant keys the schema declares
    [IntBetween 1 10000] for [batch_size]; that validator, and the
    validation of a whole SQS node, accept an integer exactly when it lies
    between 1 and 10000, both included, so that 0, 10001 and -2 are
    rejected; the mapper expands a node with any [batch_size] under any of
    the seven keys without panic, and on an SQS block it leaves 0 unset and
    copies 10001 and -2. *)
Theorem batch_size_bounds :
  Forall (fun k => batch_size_validator k = Some (IntBetween 1 10000))
    variant_keys /\
  (forall n, run (IntBetween 1 10000) (VInt n) = true <-> 1 <= n <= 10000) /\
  (forall n,
     validate sourceParametersSchema
       (block (batch_size_node "sqs_queue_parameters" n)) = true
     <-> 1 <= n <= 10000) /\
  Forall (fun n => run (IntBetween 1 10000) (VInt n) = false) [0; 10001; -2] /\
  Forall (fun k => forall n, exists o,
            expandPipeSourceParameters time_Parse (Some (batch_size_node k n))
              = Returned (Some o))
    variant_keys /\
  expandPipeSourceSqsQueueParameters (Some (<["batch_size" := VInt 0]> ∅))
    = Some (PipeSourceSqsQueueParameters.mk None None) /\
  expandPipeSourceSqsQueueParameters (Some (<["batch_size" := VInt 10001]> ∅))
    = Some (PipeSourceSqsQueueParameters.mk (Some 10001) None) /\
  expandPipeSourceSqsQueueParameters (Some (<["batch_size" := VInt (-2)]> ∅))
    = Some (PipeSourceSqsQueueParameters.mk (Some (-2)) None).
Proof.
  split; [repeat constructor|].
  split; [intros n; apply IntBetween_spec|].
  split; [intros n; rewrite validate_sqs_batch_size; apply IntBetween_spec|].
  split; [repeat constructor|].
  split; [|repeat split].
  repeat constructor; intros n; unfold batch_size_node; expanded;
    eexists; reflexivity.
Qed.

(** C8.  For a non-empty list of filter entries, each a pattern, the
    validation of the [filter_criteria] block accepts the list exactly when
    it has at most 5 entries and every pattern has a length between 1 and
    4096, both included: 5 such patterns pass, more than 5 entries are
    rejected, and so is an entry without its required pattern. *)
Theorem filter_criteria_bounds ps :
  ps ≠ [] ->
  (validate sourceParametersSchema (block (filter_criteria_node ps)) = true
   <-> (length ps <= 5)%nat /\ Forall pattern_ok ps) /\
  (length ps = 5%nat -> Forall pattern_ok ps ->
   validate sourceParametersSchema (block (filter_criteria_node ps)) = true) /\
  ((5 < length ps)%nat ->
   validate sourceParametersSchema (block (filter_criteria_node ps)) = false) /\
  validate sourceParametersSchema
    (block (<["filter_criteria" :=
               block (<["filter" := VList (Some [VMap (Some ∅)])]> ∅)]> ∅))
  = false.
Proof.
  intros _. split; [apply validate_filter_criteria|]. split; [|split].
  - intros H5 Hps. apply validate_filter_criteria. split; [lia|done].
  - intros H6. apply not_true_is_false. intros H.
    apply validate_filter_criteria in H. lia.
  - vm_compute. reflexivity.
Qed.

End Bounds.

(** Five patterns; no other validator of the schema is consulted on the way,
    so the matcher and the other parameters can be anything. *)
Lemma filter_criteria_bounds_witness :
  validateType (fun _ _ => true) (fun _ => true) utc_Parse (fun _ => [])
    sourceParametersSchema (block (filter_criteria_node five_patterns)) = true.
Proof.
  assert (Hne : five_patterns ≠ []) by done.
  apply (proj1 (proj2 (filter_criteria_bounds
           (fun _ _ => true) (fun _ => true) utc_Parse (fun _ => [])
           five_patterns Hne))).
  - reflexivity.
  - unfold pattern_ok. repeat constructor; vm_compute; discriminate.
Defined.

(** ** Filters *)

(** C9.  [flattenFilters] returns nil for a nil or empty list; for a
    non-empty list it returns a list of the same length whose i-th element is
    the map that [flattenFilter] makes of the i-th filter, and that map has
    the key [pattern] exactly when the filter's pattern is not nil. *)
Theorem flattenFilters_preserves_filters :
  flattenFilters None = None /\
  flattenFilters (Some []) = None /\
  forall l, l ≠ [] ->
    exists out,
      flattenFilters (Some l) = Some out /\
      length out = length l /\
      forall i a, l !! i = Some a ->
        exists m,
          out !! i = Some (VMap (Some m)) /\
          flattenFilter a = Some m /\
          (is_Some (m !! "pattern") <-> is_Some (Filter.Pattern a)).
Proof.
  split; [reflexivity|]. split; [reflexivity|].
  intros [|a0 l] Hne; [done|].
  rewrite flattenFilters_cons. eexists. split; [reflexivity|].
  split; [by rewrite length_fmap|].
  intros i a Hi. rewrite list_lookup_fmap, Hi. cbn.
  eexists. split; [reflexivity|]. split; [reflexivity|].
  destruct a as [[p|]]; cbn.
  - rewrite lookup_insert_eq. split; eauto.
  - rewrite lookup_empty. split; intros [? ?]; done.
Qed.

(** Two filters, the second without a pattern. *)
Lemma flattenFilters_preserves_filters_witness :
  exists out,
    flattenFilters (Some two_filters) = Some out /\
    length out = 2%nat /\
    out !! 0%nat = Some (pattern_block "{ a: [1] }") /\
    out !! 1%nat = Some (VMap (Some ∅)).
Proof.
  destruct (proj2 (proj2 flattenFilters_preserves_filters) two_filters)
    as (out & Hout & Hlen & Hnth); [done|].
  exists out. split; [exact Hout|]. split; [exact Hlen|]. split.
  - destruct (Hnth 0%nat (Filter.mk (Some "{ a: [1] }")) eq_refl)
      as (m & -> & [= <-] & _). reflexivity.
  - destruct (Hnth 1%nat (Filter.mk None) eq_refl) as (m & -> & [= <-] & _).
    reflexivity.
Defined.

(** ** The credentials cast of the ActiveMQ flattener *)

(** C10.  On a non-nil object, [flattenPipeSourceActiveMQBrokerParameters]
    returns a map exactly when [Credentials] is nil or holds the basic-auth
    member; on any other member of the union the unchecked cast panics. *)
Theorem flattenPipeSourceActiveMQBrokerParameters_total_iff
    (apiObject : PipeSourceActiveMQBrokerParameters.t) :
  ((exists m,
      flattenPipeSourceActiveMQBrokerParameters (Some apiObject)
        = Returned (Some m))
   <-> (PipeSourceActiveMQBrokerParameters.Credentials apiObject = None \/
        exists p,
          PipeSourceActiveMQBrokerParameters.Credentials apiObject
            = Some (MQBasicAuth p))) /\
  (forall u,
     PipeSourceActiveMQBrokerParameters.Credentials apiObject
       = Some (MQUnknown u) ->
     exists msg,
       flattenPipeSourceActiveMQBrokerParameters (Some apiObject) = Panicked msg).
Proof.
  destruct apiObject as [b [[p|u]|] w q]; cbn.
  - split; [|intros ? [=]]. split; [intros _; right; eauto|intros _; eauto].
  - split; [|intros ? _; eauto]. split.
    + intros [m [=]].
    + intros [[=]|[p [=]]].
  - split; [|intros ? [=]]. split; [intros _; by left|intros _; eauto].
Qed.

(** * Further properties of the mapper *)

(** ** Filters *)

Lemma expandFilters_step_filter_of acc raw :
  expandFilters_step acc raw =
  match filter_of raw with Some a => append acc a | None => acc end.
Proof. by destruct raw. Qed.

Lemma expandFilters_fold_omap l : forall acc,
  fold_left expandFilters_step l acc =
  match omap filter_of l with
  | [] => acc
  | l' => Some (slice_items acc ++ l')%list
  end.
Proof.
  induction l as [|raw l IH]; intros acc; [done|].
  cbn [fold_left omap list_omap]. rewrite IH, expandFilters_step_filter_of.
  fold (omap filter_of l).
  destruct (filter_of raw) as [a|]; [|done].
  unfold append; cbn [slice_items].
  destruct (omap filter_of l); [done|]. by rewrite <- app_assoc.
Qed.

Lemma expandFilters_omap (tfList : slice value) :
  expandFilters tfList =
  match omap filter_of (slice_items tfList) with
  | [] => None
  | l => Some l
  end.
Proof.
  unfold expandFilters, len. destruct (decide _) as [E|E].
  - apply length_zero_iff_nil in E. by rewrite E.
  - rewrite expandFilters_fold_omap. by destruct (omap filter_of _).
Qed.


Lemma expandFilter_flattenFilter a :
  expandFilter (flattenFilter a) =
  Some (Filter.mk (expand_string (VString <$> Filter.Pattern a))).
Proof.
  destruct a as [[p|]]; unfold flattenFilter, expandFilter; cbn.
  - by rewrite lookup_insert_eq.
  - by rewrite lookup_empty.
Qed.

Lemma omap_filter_of_flattenFilter (l : list Filter.t) :
  omap filter_of ((fun a => VMap (flattenFilter a)) <$> l) =
  (fun a => Filter.mk (expand_string (VString <$> Filter.Pattern a))) <$> l.
Proof.
  induction l as [|b l IH]; [done|].
  cbn [fmap list_fmap omap list_omap filter_of]. cbn [fmap omap] in IH.
  by rewrite IH, expandFilter_flattenFilter.
Qed.

Lemma patterns_kept (l : list Filter.t) :
  (fun a => Filter.mk (expand_string (VString <$> Filter.Pattern a))) <$> l = l <->
  Forall (fun a => kept_string (Filter.Pattern a)) l.
Proof.
  unfold kept_string. induction l as [|a l IH].
  - split; [constructor|done].
  - cbn [fmap list_fmap]. cbn [fmap] in IH. rewrite Forall_cons, <- IH. split.
    + intros [= Ha Hl]. split; [|done].
      destruct a as [[p|]]; cbn in *; [|done].
      unfold expand_string in Ha; cbn in Ha.
      destruct (decide (p = "")); [done|congruence].
    + intros [Ha ->]. f_equal.
      destruct a as [[p|]]; cbn in *; [|done].
      unfold expand_string; cbn. destruct (decide (p = "")); [by subst|done].
Qed.

(** X2.  Flattening a filter-criteria object and expanding the map gives the
    object back exactly when its filter list is not the empty non-nil list
    and no pattern points to the empty string: an empty list comes back
    nil, and an empty pattern comes back as a nil pattern. *)
Theorem filter_criteria_object_roundtrip (fc : FilterCriteria.t) :
  expandFilterCriteria (flattenFilterCriteria (Some fc)) = Some fc <->
  kept_filter_criteria fc.
Proof.
  unfold kept_filter_criteria.
  destruct fc as [[l|]]; cbn [flattenFilterCriteria FilterCriteria.Filters slice_items].
  2:{ unfold expandFilterCriteria. rewrite lookup_empty. cbn. split; [|done].
      intros _. split; [done|constructor]. }
  unfold expandFilterCriteria. rewrite lookup_insert_eq. cbn [as_list].
  destruct l as [|a l].
  { cbn. split; [intros [=]|intros [H _]; done]. }
  rewrite flattenFilters_cons.
  destruct (decide _) as [_|E]; [|exfalso; apply E; cbn; lia].
  rewrite expandFilters_omap.
  cbn [slice_items]. rewrite omap_filter_of_flattenFilter.
  rewrite <- patterns_kept.
  cbn [fmap list_fmap]. split.
  - intros [= Ha Hl]. split; [done|]. by rewrite Ha, Hl.
  - intros [_ [= Ha Hl]]. by rewrite Ha, Hl.
Qed.

(** ** Credentials and dead-letter configurations *)

(** X3.  Flattening a managed-streaming Kafka credentials member and
    expanding the map gives the member back exactly when it points to a
    non-empty secret; flattening panics exactly on a member that is a nil
    pointer; a member the flattener does not know flattens to an empty map,
    which expands to nil. *)
Theorem msk_credentials_object_roundtrip (c : MSKAccessCredentials) :
  (msk_credentials_back c = Returned (Some c) <-> msk_secret c) /\
  ((exists msg, msk_credentials_back c = Panicked msg) <->
   c = MSKClientCertificateTlsAuth None \/ c = MSKSaslScram512Auth None) /\
  (forall u, msk_credentials_back (MSKUnknown u) = Returned None).
Proof.
  unfold msk_credentials_back.
  destruct c as [[[v]|]|[[v]|]|u]; cbn; unfold expandMSKAccessCredentials.
  - destruct (decide (v = "")) as [->|Hv]; cbn.
    + rewrite !lookup_empty. cbn. repeat split; try done.
      * intros [? [=]].
      * intros [[=]|[=]].
    + rewrite lookup_insert_eq, expand_string_set by done. repeat split; try done.
      * intros [? [=]].
      * intros [[=]|[=]].
  - repeat split; try done; eauto.
  - destruct (decide (v = "")) as [->|Hv]; cbn.
    + rewrite !lookup_empty. cbn. repeat split; try done.
      * intros [? [=]].
      * intros [[=]|[=]].
    + rewrite lookup_insert_ne, lookup_empty, lookup_insert_eq by done.
      rewrite expand_string_set by done. cbn. repeat split; try done.
      * intros [? [=]].
      * intros [[=]|[=]].
  - repeat split; try done; eauto.
  - rewrite !lookup_empty. cbn. repeat split; try done.
    + intros [? [=]].
    + intros [[=]|[=]].
Qed.

(** X4.  A basic-auth member always survives flatten and expand, the empty
    secret included, and a nil pointer gives nil; a dead-letter
    configuration survives exactly when its ARN does not point to the empty
    string. *)
Theorem nested_objects_roundtrip :
  (forall a,
     expandMQBrokerAccessCredentialsMemberBasicAuth
       (flattenMQBrokerAccessCredentialsMemberBasicAuth (Some a))
     = Some (MQBasicAuth (Some a))) /\
  expandMQBrokerAccessCredentialsMemberBasicAuth
    (flattenMQBrokerAccessCredentialsMemberBasicAuth None) = None /\
  (forall d,
     expandDeadLetterConfig (flattenDeadLetterConfig (Some d)) = Some d
     <-> kept_string (DeadLetterConfig.Arn d)).
Proof.
  split; [|split; [reflexivity|]].
  - intros [v]. unfold flattenMQBrokerAccessCredentialsMemberBasicAuth,
      expandMQBrokerAccessCredentialsMemberBasicAuth. cbn.
    destruct (decide (v = "")) as [->|Hv].
    + by rewrite lookup_empty.
    + by rewrite lookup_insert_eq, expand_string_value_string.
  - intros [[arn|]]; unfold flattenDeadLetterConfig, expandDeadLetterConfig,
      kept_string; cbn.
    + rewrite lookup_insert_eq. unfold expand_string; cbn.
      destruct (decide (arn = "")) as [->|Hv]; split; try done.
      * intros _ [=]. done.
    + rewrite lookup_empty. done.
Qed.

(** ** The conversion to [int32] *)

(** X5.  For an integer [batch_size] the SQS expander leaves the field nil
    exactly for 0; otherwise the field holds the [int32] with the same low
    32 bits: it is the integer itself exactly when that is a non-zero
    [int32], and it points to 0 for a non-zero multiple of 2^32. *)
Theorem expand_batch_size_wraps (tfMap : gmap string value) n :
  tfMap !! "batch_size" = Some (VInt n) ->
  exists o,
    expandPipeSourceSqsQueueParameters (Some tfMap) = Some o /\
    (PipeSourceSqsQueueParameters.BatchSize o = None <-> n = 0) /\
    (forall v, PipeSourceSqsQueueParameters.BatchSize o = Some v ->
       - 2 ^ 31 <= v < 2 ^ 31 /\ v mod 2 ^ 32 = n mod 2 ^ 32) /\
    (PipeSourceSqsQueueParameters.BatchSize o = Some n <-> set_int n) /\
    (PipeSourceSqsQueueParameters.BatchSize o = Some 0
       <-> n ≠ 0 /\ n mod 2 ^ 32 = 0).
Proof.
  intros Hn. unfold expandPipeSourceSqsQueueParameters, set_int. rewrite Hn.
  eexists. split; [reflexivity|]. cbn [PipeSourceSqsQueueParameters.BatchSize].
  unfold expand_int32; cbn [as_int].
  assert (Hr : - 2 ^ 31 <= int32 n < 2 ^ 31).
  { unfold int32. pose proof (Z.mod_pos_bound (n + 2 ^ 31) (2 ^ 32)). lia. }
  assert (Hm : int32 n mod 2 ^ 32 = n mod 2 ^ 32).
  { unfold int32. rewrite Zminus_mod_idemp_l. f_equal. lia. }
  destruct (Z.eqb_spec n 0) as [->|Hne].
  - split; [done|]. split; [intros v [=]|].
    split; split; try (intros [=]); intros [? _]; done.
  - split; [split; [intros [=]|done]|].
    split; [intros v [= <-]; done|]. split; split.
    + intros [= H]. split; [done|]. rewrite <- H. exact Hr.
    + intros [_ H]. by rewrite int32_id.
    + intros [= H]. split; [done|]. rewrite <- Hm, H. done.
    + intros [_ H]. f_equal. rewrite <- Hm in H.
      pose proof (Z.div_mod (int32 n) (2 ^ 32)). lia.
Qed.

(** 2^32 + 10 is not what the field holds. *)
Lemma expand_batch_size_wraps_witness :
  exists o,
    expandPipeSourceSqsQueueParameters
      (Some (<["batch_size" := VInt wide_batch_size]> ∅)) = Some o /\
    PipeSourceSqsQueueParameters.BatchSize o ≠ Some wide_batch_size.
Proof.
  destruct (expand_batch_size_wraps
              (<["batch_size" := VInt wide_batch_size]> ∅) wide_batch_size)
    as (o & Ho & _ & _ & Hn & _); [reflexivity|].
  exists o. split; [exact Ho|]. intros H. apply Hn in H as [_ H].
  unfold wide_batch_size in H. lia.
Defined.

(** ** The keys of the expander *)

(** X6.  [expandPipeSourceParameters] reads the six keys of [mapper_keys]
    only: setting or deleting any other key, [rabbit_mq_broker] and
    [self_managed_kafka] included, changes neither the object nor whether
    the call panics. *)
Theorem expand_reads_only_its_keys time_Parse (tfMap : gmap string value) k v :
  k ∉ mapper_keys ->
  expandPipeSourceParameters time_Parse (Some (<[k := v]> tfMap)) =
    expandPipeSourceParameters time_Parse (Some tfMap) /\
  expandPipeSourceParameters time_Parse (Some (delete k tfMap)) =
    expandPipeSourceParameters time_Parse (Some tfMap).
Proof.
  intros Hk. unfold mapper_keys in Hk.
  rewrite !not_elem_of_cons in Hk. destruct_and!.
  unfold expandPipeSourceParameters.
  rewrite !lookup_insert_ne, !lookup_delete_ne by done. done.
Qed.

(** A RabbitMQ block expands like no block at all. *)
Lemma expand_reads_only_its_keys_witness :
  expandPipeSourceParameters utc_Parse
    (Some (<["rabbit_mq_broker" := block (variant_node sample_rabbit)]> ∅))
  = expandPipeSourceParameters utc_Parse (Some ∅).
Proof.
  apply (expand_reads_only_its_keys utc_Parse ∅ "rabbit_mq_broker").
  unfold mapper_keys. rewrite !not_elem_of_cons. repeat split; try discriminate.
  apply not_elem_of_nil.
Defined.

(** ** Where the expander panics *)

Lemma expand_block_returns {A} (f : tfmap -> outcome (option A)) inner
    (tfMap : gmap string value) k :
  f None = Returned None ->
  (forall m, (exists r, f (Some m) = Returned r) <->
             Forall (fun k' => block_ok (m !! k')) inner) ->
  (exists r, expand_block f (tfMap !! k) = Returned r) <-> nested_ok k inner tfMap.
Proof.
  intros Hnil Hf. unfold expand_block, nested_ok.
  destruct (first_block (tfMap !! k)) as [x|]; [|split; eauto].
  destruct x as [| | | | | | | |[m|]]; cbn; try (split; [intros [? [=]]|done]).
  - apply Hf.
  - rewrite Hnil. split; eauto.
Qed.

Lemma bind_returns {A B} (c : outcome A) (g : A -> B) :
  (exists r, c ≫= (fun a => mret (g a)) = Returned r) <-> exists a, c = Returned a.
Proof.
  destruct c; cbn; split; eauto; intros [? [=]].
Qed.

Lemma pure_block_returns {A} (f : tfmap -> option A) v :
  (exists a, expand_block (fun m => mret (f m)) v = Returned a) <-> block_ok v.
Proof.
  unfold expand_block, block_ok.
  destruct (first_block v) as [[]|]; cbn; split; eauto; try done; intros [? [=]].
Qed.

(** The expander returns, and then a non-nil object, exactly when each of
    its six blocks expands. *)
Lemma expand_returns_blocks time_Parse (tfMap : gmap string value) :
  (exists o, expandPipeSourceParameters time_Parse (Some tfMap) = Returned (Some o))
  <->
  (exists r, expand_block expandPipeSourceActiveMQBrokerParameters
               (tfMap !! "activemq_broker_parameters") = Returned r) /\
  (exists r, expand_block expandPipeSourceDynamoDBStreamParameters
               (tfMap !! "dynamodb_stream_parameters") = Returned r) /\
  (exists r, expand_block (fun m => mret (expandFilterCriteria m))
               (tfMap !! "filter_criteria") = Returned r) /\
  (exists r, expand_block (expandPipeSourceKinesisStreamParameters time_Parse)
               (tfMap !! "kinesis_stream_parameters") = Returned r) /\
  (exists r, expand_block expandPipeSourceManagedStreamingKafkaParameters
               (tfMap !! "managed_streaming_kafka_parameters") = Returned r) /\
  (exists r, expand_block (fun m => mret (expandPipeSourceSqsQueueParameters m))
               (tfMap !! "sqs_queue_parameters") = Returned r).
Proof.
  unfold expandPipeSourceParameters.
  destruct (expand_block _ (tfMap !! "activemq_broker_parameters")); cbn;
    [|split; [intros [? [=]]|intros [[? [=]] _]]].
  destruct (expand_block _ (tfMap !! "dynamodb_stream_parameters")); cbn;
    [|split; [intros [? [=]]|intros (_ & [? [=]] & _)]].
  destruct (expand_block _ (tfMap !! "filter_criteria")); cbn;
    [|split; [intros [? [=]]|intros (_ & _ & [? [=]] & _)]].
  destruct (expand_block _ (tfMap !! "kinesis_stream_parameters")); cbn;
    [|split; [intros [? [=]]|intros (_ & _ & _ & [? [=]] & _)]].
  destruct (expand_block _ (tfMap !! "managed_streaming_kafka_parameters")); cbn;
    [|split; [intros [? [=]]|intros (_ & _ & _ & _ & [? [=]] & _)]].
  destruct (expand_block _ (tfMap !! "sqs_queue_parameters")); cbn;
    [|split; [intros [? [=]]|intros (_ & _ & _ & _ & _ & [? [=]])]].
  split; [intros _; repeat split; eauto|intros _; eauto].
Qed.

Lemma activemq_block_returns (tfMap : gmap string value) :
  (exists r, expand_block expandPipeSourceActiveMQBrokerParameters
               (tfMap !! "activemq_broker_parameters") = Returned r) <->
  nested_ok "activemq_broker_parameters" ["credentials"] tfMap.
Proof.
  apply expand_block_returns; [done|]. intros m.
  unfold expandPipeSourceActiveMQBrokerParameters.
  by rewrite bind_returns, pure_block_returns, Forall_singleton.
Qed.

Lemma dynamodb_block_returns (tfMap : gmap string value) :
  (exists r, expand_block expandPipeSourceDynamoDBStreamParameters
               (tfMap !! "dynamodb_stream_parameters") = Returned r) <->
  nested_ok "dynamodb_stream_parameters" ["dead_letter_config"] tfMap.
Proof.
  apply expand_block_returns; [done|]. intros m.
  unfold expandPipeSourceDynamoDBStreamParameters.
  by rewrite bind_returns, pure_block_returns, Forall_singleton.
Qed.

Lemma kinesis_block_returns time_Parse (tfMap : gmap string value) :
  (exists r, expand_block (expandPipeSourceKinesisStreamParameters time_Parse)
               (tfMap !! "kinesis_stream_parameters") = Returned r) <->
  nested_ok "kinesis_stream_parameters" ["dead_letter_config"] tfMap.
Proof.
  apply expand_block_returns; [done|]. intros m.
  unfold expandPipeSourceKinesisStreamParameters.
  by rewrite bind_returns, pure_block_returns, Forall_singleton.
Qed.

Lemma msk_block_returns (tfMap : gmap string value) :
  (exists r, expand_block expandPipeSourceManagedStreamingKafkaParameters
               (tfMap !! "managed_streaming_kafka_parameters") = Returned r) <->
  nested_ok "managed_streaming_kafka_parameters" ["credentials"] tfMap.
Proof.
  apply expand_block_returns; [done|]. intros m.
  unfold expandPipeSourceManagedStreamingKafkaParameters.
  by rewrite bind_returns, pure_block_returns, Forall_singleton.
Qed.

Lemma flat_block_returns {A} (f : tfmap -> option A) k
    (tfMap : gmap string value) :
  f None = None ->
  (exists r, expand_block (fun m => mret (f m)) (tfMap !! k) = Returned r) <->
  nested_ok k [] tfMap.
Proof.
  intros Hnil. apply expand_block_returns; [by rewrite Hnil|].
  intros m. split; [constructor|eauto].
Qed.


(** ** Where the flattener panics *)

Lemma expand_block_some {A} (f : tfmap -> outcome (option A)) v o :
  expand_block f v = Returned (Some o) -> exists m, f m = Returned (Some o).
Proof.
  unfold expand_block. destruct (first_block v) as [x|]; [|done].
  destruct (assert_map x) as [m|]; cbn; [eauto|done].
Qed.

Lemma expandMQ_member m c :
  expandMQBrokerAccessCredentialsMemberBasicAuth m = Some c ->
  exists a, c = MQBasicAuth (Some a).
Proof. destruct m; cbn; [|done]. intros [= <-]. eauto. Qed.

Lemma expanded_activemq_flattens t o :
  expandPipeSourceActiveMQBrokerParameters t = Returned (Some o) ->
  exists m, flattenPipeSourceActiveMQBrokerParameters (Some o) = Returned (Some m).
Proof.
  destruct t as [tfMap|]; [|done]. unfold expandPipeSourceActiveMQBrokerParameters.
  destruct (expand_block _ _) as [c|] eqn:Hc; cbn; [|done]. intros [= <-]. cbn.
  destruct c as [c|]; cbn; [|eauto].
  apply expand_block_some in Hc as (m & [= Hm]).
  apply expandMQ_member in Hm as (a & ->). cbn. eauto.
Qed.

Lemma expandMSK_member m c :
  expandMSKAccessCredentials m = Some c ->
  (exists a, c = MSKClientCertificateTlsAuth (Some a)) \/
  (exists a, c = MSKSaslScram512Auth (Some a)).
Proof.
  destruct m as [tfMap|]; cbn; [|done].
  destruct (expand_string _); [intros [= <-]; eauto|].
  destruct (expand_string _); [intros [= <-]; eauto|done].
Qed.

Lemma expanded_msk_flattens t o :
  expandPipeSourceManagedStreamingKafkaParameters t = Returned (Some o) ->
  exists m,
    flattenPipeSourceManagedStreamingKafkaParameters (Some o) = Returned (Some m).
Proof.
  destruct t as [tfMap|]; [|done].
  unfold expandPipeSourceManagedStreamingKafkaParameters.
  destruct (expand_block _ _) as [c|] eqn:Hc; cbn; [|done]. intros [= <-].
  destruct c as [c|]; [|cbn; eauto].
  apply expand_block_some in Hc as (m & [= Hm]).
  apply expandMSK_member in Hm as [(a & ->)|(a & ->)]; cbn; eauto.
Qed.

Lemma set_block_returns {A} k (field : option A) flat tm :
  (forall v, field = Some v -> exists m, flat (Some v) = Returned m) ->
  exists tm', set_block k field flat tm = Returned tm'.
Proof.
  destruct field as [v|]; cbn; [|eauto]. intros H.
  destruct (H v eq_refl) as (m & ->). cbn. eauto.
Qed.

Lemma set_block_pure {A} k (field : option A) (g : option A -> tfmap) tm :
  set_block k field (fun v => mret (g v)) tm =
  Returned (set_if k field (fun v => wrap (g (Some v))) tm).
Proof. by destruct field. Qed.

(** X8.  Whatever [expandPipeSourceParameters] returns,
    [flattenPipeSourceParameters] flattens without panic: the round trip
    returns exactly when the expander does.  The credentials that the
    expander builds are the basic-auth member and non-nil pointers, on which
    the unchecked cast and the dereference of the flatteners succeed. *)
Theorem roundtrip_returns_when_expand_does time_Parse time_Format (t : tfmap) :
  (exists m, roundtrip time_Parse time_Format t = Returned m) <->
  (exists o, expandPipeSourceParameters time_Parse t = Returned o).
Proof.
  unfold roundtrip. split.
  - intros [m H]. destruct (expandPipeSourceParameters _ _); [eauto|done].
  - intros [o H]. rewrite H. cbn [mbind outcome_bind].
    destruct t as [tfMap|]; [|injection H as <-; cbn; eauto].
    unfold expandPipeSourceParameters in H.
    destruct (expand_block _ (tfMap !! "activemq_broker_parameters"))
      as [a|] eqn:Ha; [|done]; cbn in H.
    destruct (expand_block _ (tfMap !! "dynamodb_stream_parameters"))
      as [d|] eqn:Hd; [|done]; cbn in H.
    destruct (expand_block _ (tfMap !! "filter_criteria"))
      as [fc|] eqn:Hfc; [|done]; cbn in H.
    destruct (expand_block _ (tfMap !! "kinesis_stream_parameters"))
      as [k|] eqn:Hk; [|done]; cbn in H.
    destruct (expand_block _ (tfMap !! "managed_streaming_kafka_parameters"))
      as [ms|] eqn:Hms; [|done]; cbn in H.
    destruct (expand_block _ (tfMap !! "sqs_queue_parameters"))
      as [q|] eqn:Hq; [|done]; cbn in H.
    injection H as <-. unfold flattenPipeSourceParameters.
    cbn [PipeSourceParameters.ActiveMQBrokerParameters
         PipeSourceParameters.DynamoDBStreamParameters
         PipeSourceParameters.FilterCriteria
         PipeSourceParameters.KinesisStreamParameters
         PipeSourceParameters.ManagedStreamingKafkaParameters
         PipeSourceParameters.SqsQueueParameters].
    destruct (set_block_returns "activemq_broker_parameters" a
      flattenPipeSourceActiveMQBrokerParameters ∅) as (t1 & ->).
    { intros v ->. apply expand_block_some in Ha as (m & Hm).
      apply expanded_activemq_flattens in Hm as (r & ->). eauto. }
    cbn [mbind outcome_bind].
    do 3 (rewrite set_block_pure; cbn [mbind outcome_bind]).
    edestruct (set_block_returns "managed_streaming_kafka_parameters" ms
      flattenPipeSourceManagedStreamingKafkaParameters) as (t5 & Ht5);
      [|rewrite Ht5].
    { intros v ->. apply expand_block_some in Hms as (m & Hm).
      apply expanded_msk_flattens in Hm as (r & ->). eauto. }
    cbn [mbind outcome_bind]. rewrite set_block_pure. cbn. eauto.
Qed.

(** X9.  On a non-nil object [flattenPipeSourceParameters] returns, and then
    a non-nil map, exactly when the ActiveMQ credentials are nil or the
    basic-auth member and the managed-streaming Kafka credentials are not a
    member that is a nil pointer; no other field of the object can make it
    panic. *)
Theorem flatten_panics_only_on_credentials time_Format o :
  (exists m, flattenPipeSourceParameters time_Format (Some o) = Returned (Some m))
  <-> flattenable o.
Proof.
  unfold flattenable, flattenPipeSourceParameters.
  destruct o as [a d fc k ms r sm q].
  cbn [PipeSourceParameters.ActiveMQBrokerParameters
       PipeSourceParameters.DynamoDBStreamParameters
       PipeSourceParameters.FilterCriteria
       PipeSourceParameters.KinesisStreamParameters
       PipeSourceParameters.ManagedStreamingKafkaParameters
       PipeSourceParameters.SqsQueueParameters].
  assert (Ha : forall tm,
    match a with
    | Some a =>
      match PipeSourceActiveMQBrokerParameters.Credentials a with
      | Some (MQUnknown _) => False
      | _ => True
      end
    | None => True
    end <->
    exists tm', set_block "activemq_broker_parameters" a
      flattenPipeSourceActiveMQBrokerParameters tm = Returned tm').
  { intros tm. destruct a as [[b [[p|u]|] w qn]|]; cbn; split; eauto; try done;
      intros [? [=]]. }
  assert (Hms : forall tm,
    match ms with
    | Some k =>
      match PipeSourceManagedStreamingKafkaParameters.Credentials k with
      | Some (MSKClientCertificateTlsAuth None)
      | Some (MSKSaslScram512Auth None) => False
      | _ => True
      end
    | None => True
    end <->
    exists tm', set_block "managed_streaming_kafka_parameters" ms
      flattenPipeSourceManagedStreamingKafkaParameters tm = Returned tm').
  { intros tm. destruct ms as [[b g [[[x|]|[x|]|u]|] w pos topic]|]; cbn;
      split; eauto; try done; intros [? [=]]. }
  rewrite (Ha ∅). clear Ha.
  destruct (set_block "activemq_broker_parameters" _ _ _) as [t1|]; cbn;
    [|split; [intros [? [=]]|intros [[? [=]] _]]].
  do 3 (rewrite set_block_pure; cbn [mbind outcome_bind]).
  match goal with
  | |- context [set_block "managed_streaming_kafka_parameters" _ _ ?tm] =>
    rewrite (Hms tm)
  end.
  destruct (set_block "managed_streaming_kafka_parameters" _ _ _) as [t5|]; cbn;
    [|split; [intros [? [=]]|intros [_ [? [=]]]]].
  rewrite set_block_pure. cbn. split; eauto.
Qed.

(** ** The keys of the flattener *)






(** ** From the object to the node and back *)

Lemma lookup_set_if_eq {A} k (field : option A) g (m : gmap string value) :
  set_if k field g m !! k =
  match field with Some v => Some (g v) | None => m !! k end.
Proof. destruct field; cbn; [by rewrite lookup_insert_eq|done]. Qed.

Lemma lookup_set_if_ne {A} k k' (field : option A) g (m : gmap string value) :
  k ≠ k' -> set_if k field g m !! k' = m !! k'.
Proof. intros H. destruct field; cbn; [by rewrite lookup_insert_ne|done]. Qed.

Lemma lookup_set_enum_eq k ty s (m : gmap string value) :
  set_enum k ty s m !! k =
  if decide (s = "") then m !! k else Some (VEnum ty s).
Proof. unfold set_enum. destruct (decide _); [done|by rewrite lookup_insert_eq]. Qed.

Lemma lookup_set_enum_ne k k' ty s (m : gmap string value) :
  k ≠ k' -> set_enum k ty s m !! k' = m !! k'.
Proof.
  intros H. unfold set_enum. destruct (decide _); [done|by rewrite lookup_insert_ne].
Qed.

(** Look a key up in a retyped map that the flattener built. *)
Ltac chain :=
  rewrite ?lookup_fmap;
  repeat first [ rewrite lookup_set_if_eq
               | rewrite lookup_set_enum_eq
               | rewrite lookup_insert_eq
               | rewrite lookup_set_if_ne by done
               | rewrite lookup_set_enum_ne by done
               | rewrite lookup_insert_ne by done
               | rewrite lookup_empty ].

Lemma back_int field :
  kept_int field ->
  expand_int32 (retype <$> match field with Some v => Some (VInt32 v) | None => None end)
  = field.
Proof. destruct field as [n|]; cbn; [|done]. intros H. by apply expand_int32_set. Qed.

Lemma back_string field :
  kept_string field ->
  expand_string (retype <$> match field with Some v => Some (VString v) | None => None end)
  = field.
Proof.
  destruct field as [s|]; cbn; [|done]. intros H. apply expand_string_set.
  intros ->. done.
Qed.

Lemma back_enum ty s :
  expand_string_value
    (retype <$> (if decide (s = "") then None else Some (VEnum ty s))) = s.
Proof.
  destruct (decide (s = "")) as [->|H]; cbn; [done|].
  apply expand_string_value_string.
Qed.

Lemma back_time p f field :
  kept_time p f field ->
  expand_time p
    (retype <$> match field with
                | Some v => Some (VString (f v RFC3339))
                | None => None
                end) = field.
Proof.
  destruct field as [t|]; [|done]. intros [H1 H2].
  change (expand_time p (Some (VString (f t RFC3339))) = Some t).
  rewrite expand_time_set by done. by rewrite H2.
Qed.

Lemma sqs_back o :
  kept_sqs o ->
  exists m, flattenPipeSourceSqsQueueParameters (Some o) = Some m /\
    expandPipeSourceSqsQueueParameters (Some (retype <$> m)) = Some o.
Proof.
  destruct o as [b w]; unfold kept_sqs; cbn. intros [Hb Hw].
  eexists. split; [reflexivity|].
  unfold expandPipeSourceSqsQueueParameters. chain.
  by rewrite !back_int.
Qed.

Lemma dead_letter_back d :
  kept_string (DeadLetterConfig.Arn d) ->
  exists m, flattenDeadLetterConfig (Some d) = Some m /\
    expandDeadLetterConfig (Some (retype <$> m)) = Some d.
Proof.
  destruct d as [arn]; cbn. intros H. eexists. split; [reflexivity|].
  unfold expandDeadLetterConfig. chain. by rewrite back_string.
Qed.

Lemma expand_dead_letter_block field :
  kept_dead_letter field ->
  expand_block (fun m => mret (expandDeadLetterConfig m))
    (retype <$> match field with
                | Some v => Some (wrap (flattenDeadLetterConfig (Some v)))
                | None => None
                end) = Returned field.
Proof.
  destruct field as [d|]; [|done]. intros H.
  destruct (dead_letter_back d H) as (m & -> & Hm).
  change (expand_block _ _)
    with (Returned (expandDeadLetterConfig (Some (retype <$> m)))).
  by rewrite Hm.
Qed.

Lemma dynamodb_back o :
  kept_dynamodb o ->
  exists m, flattenPipeSourceDynamoDBStreamParameters (Some o) = Some m /\
    expandPipeSourceDynamoDBStreamParameters (Some (retype <$> m))
      = Returned (Some o).
Proof.
  destruct o as [b dlc w age retry fail par pos];
    unfold kept_dynamodb, kept_stream; cbn.
  intros (?&?&?&?&?&?). eexists. split; [reflexivity|].
  unfold expandPipeSourceDynamoDBStreamParameters. chain.
  rewrite expand_dead_letter_block by done. cbn [mbind outcome_bind mret outcome_ret].
  by rewrite !back_int, !back_enum.
Qed.

Lemma kinesis_back p f o :
  kept_kinesis p f o ->
  exists m, flattenPipeSourceKinesisStreamParameters f (Some o) = Some m /\
    expandPipeSourceKinesisStreamParameters p (Some (retype <$> m))
      = Returned (Some o).
Proof.
  destruct o as [b dlc w age retry fail par pos ts];
    unfold kept_kinesis, kept_stream; cbn.
  intros [(?&?&?&?&?&?) ?]. eexists. split; [reflexivity|].
  unfold expandPipeSourceKinesisStreamParameters. chain.
  rewrite expand_dead_letter_block by done. cbn [mbind outcome_bind mret outcome_ret].
  by rewrite !back_int, !back_enum, back_time.
Qed.

Lemma activemq_back o :
  kept_activemq o ->
  exists m, flattenPipeSourceActiveMQBrokerParameters (Some o) = Returned (Some m) /\
    expandPipeSourceActiveMQBrokerParameters (Some (retype <$> m))
      = Returned (Some o).
Proof.
  destruct o as [b c w q]; unfold kept_activemq; cbn.
  intros (Hb & Hc & Hw & Hq).
  destruct c as [[[[v]|]|]|]; try done.
  - eexists. split; [reflexivity|].
    unfold expandPipeSourceActiveMQBrokerParameters. chain.
    cbn [expand_block fmap option_fmap option_map retype wrap first_block as_list
         List.map assert_map mbind outcome_bind mret outcome_ret
         flattenMQBrokerAccessCredentialsMemberBasicAuth
         MQBrokerAccessCredentialsMemberBasicAuth.Value].
    unfold expandMQBrokerAccessCredentialsMemberBasicAuth.
    rewrite !back_int, back_string by done. do 4 f_equal.
    destruct (decide (v = "")) as [->|Hv]; chain; [done|].
    cbn [fmap option_fmap option_map retype].
    by rewrite expand_string_value_string.
  - eexists. split; [reflexivity|].
    unfold expandPipeSourceActiveMQBrokerParameters. chain.
    cbn [expand_block fmap option_fmap option_map first_block as_list
         mbind outcome_bind mret outcome_ret].
    by rewrite !back_int, back_string.
Qed.

Lemma msk_back o :
  kept_msk o ->
  exists m,
    flattenPipeSourceManagedStreamingKafkaParameters (Some o) = Returned (Some m) /\
    expandPipeSourceManagedStreamingKafkaParameters (Some (retype <$> m))
      = Returned (Some o).
Proof.
  destruct o as [b g c w pos topic]; unfold kept_msk; cbn.
  intros (Hb & Hg & Hc & Hw & Ht).
  destruct c as [[[[v]|]|[[v]|]|]|]; cbn in Hc; try done.
  - cbn. rewrite decide_False by done. cbn.
    eexists. split; [reflexivity|].
    unfold expandPipeSourceManagedStreamingKafkaParameters. chain.
    cbn [expand_block fmap option_fmap option_map retype wrap first_block as_list
         List.map assert_map mbind outcome_bind mret outcome_ret].
    unfold expandMSKAccessCredentials. chain. cbn [fmap option_fmap option_map retype].
    rewrite expand_string_set by done.
    by rewrite !back_int, !back_string, back_enum.
  - cbn. rewrite decide_False by done. cbn.
    eexists. split; [reflexivity|].
    unfold expandPipeSourceManagedStreamingKafkaParameters. chain.
    cbn [expand_block fmap option_fmap option_map retype wrap first_block as_list
         List.map assert_map mbind outcome_bind mret outcome_ret].
    unfold expandMSKAccessCredentials. chain. cbn [fmap option_fmap option_map retype].
    rewrite expand_string_set by done.
    by rewrite !back_int, !back_string, back_enum.
  - cbn. eexists. split; [reflexivity|].
    unfold expandPipeSourceManagedStreamingKafkaParameters. chain.
    cbn [expand_block fmap option_fmap option_map first_block as_list
         mbind outcome_bind mret outcome_ret].
    by rewrite !back_int, !back_string, back_enum.
Qed.

Lemma retype_flattened_filters (l : list Filter.t) :
  List.map retype ((fun a => VMap (flattenFilter a)) <$> l) =
  (fun a => VMap (flattenFilter a)) <$> l.
Proof.
  induction l as [|a l IH]; [done|].
  cbn [fmap list_fmap List.map]. cbn [fmap] in IH. rewrite IH. f_equal.
  destruct a as [[p|]]; unfold flattenFilter; cbn.
  - by rewrite fmap_insert, fmap_empty.
  - by rewrite fmap_empty.
Qed.

Lemma filter_criteria_back fc :
  kept_filter_criteria fc ->
  exists m, flattenFilterCriteria (Some fc) = Some m /\
    expandFilterCriteria (Some (retype <$> m)) = Some fc.
Proof.
  destruct fc as [[l|]]; unfold kept_filter_criteria; cbn; intros [Hne Hall].
  - destruct l as [|a l]; [done|]. rewrite flattenFilters_cons.
    eexists. split; [reflexivity|].
    unfold expandFilterCriteria. rewrite fmap_insert, lookup_insert_eq.
    cbn [retype option_map as_list]. rewrite retype_flattened_filters.
    destruct (decide _) as [_|E]; [|exfalso; apply E; cbn; lia].
    rewrite expandFilters_omap. cbn [slice_items].
    rewrite omap_filter_of_flattenFilter.
    apply patterns_kept in Hall. rewrite Hall. done.
  - eexists. split; [reflexivity|].
    unfold expandFilterCriteria. by rewrite fmap_empty, lookup_empty.
Qed.

(** One field of the object: what [set_block] writes for it expands, once
    retyped, to the field again. *)
Lemma link {T} k (field : option T) (P : T -> Prop)
    (flat : option T -> outcome tfmap)
    (expand : tfmap -> outcome (option T)) :
  (forall v, P v -> exists m, flat (Some v) = Returned (Some m) /\
     expand (Some (retype <$> m)) = Returned (Some v)) ->
  kept_if P field ->
  exists e : option value,
    (forall tm, set_block k field flat tm = Returned (set_if k e id tm)) /\
    expand_block expand (retype <$> e) = Returned field.
Proof.
  intros H Hf. destruct field as [v|].
  - destruct (H v Hf) as (m & Hm & He). exists (Some (wrap (Some m))). split.
    + intros tm. cbn. by rewrite Hm.
    + exact He.
  - exists None. done.
Qed.

Lemma option_id_eta {A} (e : option A) :
  match e with Some v => Some (id v) | None => None end = e.
Proof. by destruct e. Qed.

(** X11.  An object whose fields are all kept (integers non-zero and within
    [int32], no pointer to an empty string, credentials that are a basic-auth
    member or a non-empty managed-streaming Kafka secret, a timestamp that
    [time.Format] and [time.Parse] give back, filters as in X2, and the
    RabbitMQ and self-managed Kafka fields nil) flattens without panic, and
    the map, read back with its scalars as [int] and [string], expands
    without panic to the same object. *)
Theorem object_roundtrip time_Parse time_Format o :
  kept_object time_Parse time_Format o ->
  exists m,
    flattenPipeSourceParameters time_Format (Some o) = Returned (Some m) /\
    expandPipeSourceParameters time_Parse (Some (retype <$> m)) = Returned (Some o).
Proof.
  destruct o as [a d fc k ms r sm q]; unfold kept_object; cbn.
  intros (Ha & Hd & Hfc & Hk & Hms & -> & -> & Hq).
  destruct (link "activemq_broker_parameters" a kept_activemq
    flattenPipeSourceActiveMQBrokerParameters
    expandPipeSourceActiveMQBrokerParameters activemq_back Ha) as (e1 & F1 & E1).
  assert (Bd : forall v, kept_dynamodb v ->
    exists m,
      mret (flattenPipeSourceDynamoDBStreamParameters (Some v)) = Returned (Some m) /\
      expandPipeSourceDynamoDBStreamParameters (Some (retype <$> m))
        = Returned (Some v)).
  { intros v Hv. destruct (dynamodb_back v Hv) as (m & -> & Hm). eauto. }
  destruct (link "dynamodb_stream_parameters" d _
    (fun v => mret (flattenPipeSourceDynamoDBStreamParameters v)) _ Bd Hd)
    as (e2 & F2 & E2).
  assert (Bf : forall v, kept_filter_criteria v ->
    exists m,
      mret (flattenFilterCriteria (Some v)) = Returned (Some m) /\
      mret (expandFilterCriteria (Some (retype <$> m))) = Returned (Some v)).
  { intros v Hv. destruct (filter_criteria_back v Hv) as (m & -> & Hm).
    exists m. split; [done|]. by rewrite Hm. }
  destruct (link "filter_criteria" fc _
    (fun v => mret (flattenFilterCriteria v))
    (fun m => mret (expandFilterCriteria m)) Bf Hfc) as (e3 & F3 & E3).
  assert (Bk : forall v, kept_kinesis time_Parse time_Format v ->
    exists m,
      mret (flattenPipeSourceKinesisStreamParameters time_Format (Some v))
        = Returned (Some m) /\
      expandPipeSourceKinesisStreamParameters time_Parse (Some (retype <$> m))
        = Returned (Some v)).
  { intros v Hv. destruct (kinesis_back time_Parse time_Format v Hv)
      as (m & -> & Hm). eauto. }
  destruct (link "kinesis_stream_parameters" k _
    (fun v => mret (flattenPipeSourceKinesisStreamParameters time_Format v)) _
    Bk Hk) as (e4 & F4 & E4).
  destruct (link "managed_streaming_kafka_parameters" ms kept_msk
    flattenPipeSourceManagedStreamingKafkaParameters
    expandPipeSourceManagedStreamingKafkaParameters msk_back Hms) as (e5 & F5 & E5).
  assert (Bq : forall v, kept_sqs v ->
    exists m,
      mret (flattenPipeSourceSqsQueueParameters (Some v)) = Returned (Some m) /\
      mret (expandPipeSourceSqsQueueParameters (Some (retype <$> m)))
        = Returned (Some v)).
  { intros v Hv. destruct (sqs_back v Hv) as (m & -> & Hm).
    exists m. split; [done|]. by rewrite Hm. }
  destruct (link "sqs_queue_parameters" q _
    (fun v => mret (flattenPipeSourceSqsQueueParameters v))
    (fun m => mret (expandPipeSourceSqsQueueParameters m)) Bq Hq)
    as (e6 & F6 & E6).
  unfold flattenPipeSourceParameters.
  cbn [PipeSourceParameters.ActiveMQBrokerParameters
       PipeSourceParameters.DynamoDBStreamParameters
       PipeSourceParameters.FilterCriteria
       PipeSourceParameters.KinesisStreamParameters
       PipeSourceParameters.ManagedStreamingKafkaParameters
       PipeSourceParameters.SqsQueueParameters].
  rewrite F1. cbn [mbind outcome_bind]. rewrite F2. cbn [mbind outcome_bind].
  rewrite F3. cbn [mbind outcome_bind]. rewrite F4. cbn [mbind outcome_bind].
  rewrite F5. cbn [mbind outcome_bind]. rewrite F6. cbn [mbind outcome_bind].
  eexists. split; [reflexivity|].
  unfold expandPipeSourceParameters. chain. rewrite !option_id_eta.
  rewrite E1, E2, E3, E4, E5, E6. reflexivity.
Qed.

(** The Kinesis object with its timestamp and filters, under the UTC
    instance of the [time] functions. *)
Lemma object_roundtrip_witness :
  exists m,
    flattenPipeSourceParameters utc_Format (Some sample_object)
      = Returned (Some m) /\
    expandPipeSourceParameters utc_Parse (Some (retype <$> m))
      = Returned (Some sample_object).
Proof.
  apply (object_roundtrip utc_Parse utc_Format sample_object).
  unfold kept_object, sample_object, kept_if, kept_kinesis, kept_stream,
    kept_filter_criteria, kept_dead_letter, kept_if, kept_time, kept_int,
    kept_string, set_int, two_filters; cbn.
  repeat split; try discriminate; try lia.
  repeat constructor; discriminate.
Defined.

(** ** Validation and the expander *)

Section Validity.

Variable regexp_MatchString : string -> string -> bool.
Variable verify_ValidARN : string -> bool.
Variable time_Parse : string -> string -> Time.t * option string.
Variable enum_Values : enum_type -> list string.

Abbreviation validate :=
  (validateType regexp_MatchString verify_ValidARN time_Parse enum_Values).
Abbreviation check_field :=
  (field_ok regexp_MatchString verify_ValidARN time_Parse enum_Values).

Lemma forallb_check_field m fields :
  forallb (fun '(k, s') =>
             match m !! k with
             | None | Some VNil => negb (Required s')
             | Some x => validate s' x
             end) fields
  = forallb (check_field m) fields.
Proof.
  induction fields as [|[k s'] fields IH]; [done|].
  cbn [forallb]. by rewrite IH.
Qed.

(** A valid list of blocks is a list or set within [MaxItems] whose items
    are nil or maps with valid fields. *)
Lemma validate_list s fields x :
  Type_ s = TypeList -> Elem s = Some (Resource fields) ->
  validate s x = true ->
  exists items,
    collection_items x = Some items /\
    (0 < MaxItems s -> length items <= MaxItems s)%nat /\
    Forall (fun item => exists m, block_fields item = Some m /\
              forallb (check_field m) fields = true) items.
Proof.
  intros Ht He. destruct s; cbn in Ht, He; subst. cbn.
  destruct (collection_items x) as [items|]; [|done].
  rewrite andb_true_iff. intros [Hmax Hitems]. exists items.
  split; [done|]. split.
  - destruct (decide _) as [|Hn]; [done|]. lia.
  - clear Hmax. induction items as [|item items IH]; [constructor|].
    cbn [forallb] in Hitems. apply andb_true_iff in Hitems as [Hi Hr].
    constructor; [|by apply IH].
    destruct (block_fields item) as [m|]; [|done]. exists m. split; [done|].
    by rewrite <- forallb_check_field.
Qed.

Lemma forallb_field m fields i k s :
  forallb (check_field m) fields = true -> fields !! i = Some (k, s) ->
  check_field m (k, s) = true.
Proof.
  intros H Hi. rewrite forallb_forall in H. apply H.
  apply list_elem_of_In. by eapply list_elem_of_lookup_2.
Qed.

Lemma field_ok_first_block m k s fields :
  Type_ s = TypeList -> Elem s = Some (Resource fields) ->
  check_field m (k, s) = true ->
  match first_block (m !! k) with
  | None => True
  | Some (VMap None) => True
  | Some (VMap (Some m')) => forallb (check_field m') fields = true
  | Some _ => False
  end.
Proof.
  intros Ht He. unfold field_ok. cbn [fst snd].
  destruct (m !! k) as [x|]; [|done].
  destruct x as [| | | | | |l|l|mm]; try done;
    intros H; apply (validate_list _ fields) in H as (items & Hc & _ & Hi);
    try done.
  injection Hc as <-. destruct l as [[|x l]|]; try done. cbn.
  apply Forall_cons in Hi as [(m' & Hx & Hf) _].
  destruct x as [| | | | | | | |[mm|]]; try done. by injection Hx as <-.
Qed.

Lemma field_ok_whole_list m k s :
  Type_ s = TypeList -> (exists fields, Elem s = Some (Resource fields)) ->
  MaxItems s = 1%nat ->
  check_field m (k, s) = true -> whole_list (m !! k).
Proof.
  intros Ht [fields He] Hm. unfold field_ok. cbn [fst snd]. intros H l Hl.
  rewrite Hl in H. apply (validate_list _ fields) in H as (items & Hc & Hmax & _);
    [|done..].
  injection Hc as <-. rewrite Hm in Hmax. unfold len. lia.
Qed.

Lemma field_ok_block_ok m k s fields :
  Type_ s = TypeList -> Elem s = Some (Resource fields) ->
  check_field m (k, s) = true -> block_ok (m !! k).
Proof.
  intros Ht He H. apply (field_ok_first_block _ _ _ fields) in H; [|done..].
  unfold block_ok. by destruct (first_block (m !! k)) as [[| | | | | | | |[]]|].
Qed.

Lemma field_ok_nested_ok m k s fields inner :
  Type_ s = TypeList -> Elem s = Some (Resource fields) ->
  Forall (single_block_field fields) inner ->
  check_field m (k, s) = true ->
  nested_ok k inner m /\
  forall m' k', first_block (m !! k) = Some (VMap (Some m')) -> k' ∈ inner ->
    whole_list (m' !! k').
Proof.
  intros Ht He Hin H. apply (field_ok_first_block _ _ _ fields) in H; [|done..].
  unfold nested_ok.
  destruct (first_block (m !! k)) as [[| | | | | | | |[m'|]]|]; try done.
  split.
  - eapply Forall_impl; [exact Hin|]. intros k' (i & s' & fields' & Hi & ? & ? & _).
    eapply field_ok_block_ok; [done..|]. by eapply forallb_field.
  - intros ? k' [= <-] Hk'. rewrite Forall_forall in Hin.
    destruct (Hin k' Hk') as (i & s' & fields' & Hi & ? & ? & ?).
    eapply field_ok_whole_list; [done|by eexists|done|]. by eapply forallb_field.
Qed.

Lemma nested_field i s' fields' fields k' :
  fields !! i = Some (k', s') -> Type_ s' = TypeList ->
  Elem s' = Some (Resource fields') -> MaxItems s' = 1%nat ->
  Forall (single_block_field fields) [k'].
Proof. intros. apply Forall_singleton. by exists i, s', fields'. Qed.

(** X12.  A [source_parameters] block that the schema of
    [sourceParametersSchema] accepts never makes the expander panic: it
    expands to a non-nil object.  The schema also declares every list that
    the mapper reads only the first element of (the six blocks of
    [mapper_keys] and the nested [credentials] and [dead_letter_config])
    with [MaxItems] 1, so that on an accepted block the first element is the
    whole list. *)
Theorem valid_node_expands time_Parse' (m : gmap string value) :
  validate sourceParametersSchema (wrap (Some m)) = true ->
  (exists o, expandPipeSourceParameters time_Parse' (Some m) = Returned (Some o)) /\
  (forall k, k ∈ mapper_keys -> whole_list (m !! k)) /\
  (forall k k' m', (k, k') ∈ nested_blocks ->
     first_block (m !! k) = Some (VMap (Some m')) -> whole_list (m' !! k')).
Proof.
  intros H. unfold wrap in H. erewrite validate_block in H; [|reflexivity..].
  pose proof (forallb_field _ _ 0%nat _ _ H eq_refl) as Ha.
  pose proof (forallb_field _ _ 1%nat _ _ H eq_refl) as Hd.
  pose proof (forallb_field _ _ 2%nat _ _ H eq_refl) as Hf.
  pose proof (forallb_field _ _ 3%nat _ _ H eq_refl) as Hk.
  pose proof (forallb_field _ _ 4%nat _ _ H eq_refl) as Hm.
  pose proof (forallb_field _ _ 7%nat _ _ H eq_refl) as Hs.
  clear H.
  pose proof Ha as Ha1. pose proof Hd as Hd1. pose proof Hf as Hf1.
  pose proof Hk as Hk1. pose proof Hm as Hm1. pose proof Hs as Hs1.
  eapply field_ok_whole_list in Ha1; [|reflexivity|eexists; reflexivity|reflexivity].
  eapply field_ok_whole_list in Hd1; [|reflexivity|eexists; reflexivity|reflexivity].
  eapply field_ok_whole_list in Hf1; [|reflexivity|eexists; reflexivity|reflexivity].
  eapply field_ok_whole_list in Hk1; [|reflexivity|eexists; reflexivity|reflexivity].
  eapply field_ok_whole_list in Hm1; [|reflexivity|eexists; reflexivity|reflexivity].
  eapply field_ok_whole_list in Hs1; [|reflexivity|eexists; reflexivity|reflexivity].
  eapply (field_ok_nested_ok _ _ _ _ ["credentials"]) in Ha as [Ha Ha2];
    [|reflexivity..|eapply (nested_field 1%nat); reflexivity].
  eapply (field_ok_nested_ok _ _ _ _ ["dead_letter_config"]) in Hd as [Hd Hd2];
    [|reflexivity..|eapply (nested_field 1%nat); reflexivity].
  eapply (field_ok_nested_ok _ _ _ _ []) in Hf as [Hf _];
    [|reflexivity..|constructor].
  eapply (field_ok_nested_ok _ _ _ _ ["dead_letter_config"]) in Hk as [Hk Hk2];
    [|reflexivity..|eapply (nested_field 1%nat); reflexivity].
  eapply (field_ok_nested_ok _ _ _ _ ["credentials"]) in Hm as [Hm Hm2];
    [|reflexivity..|eapply (nested_field 2%nat); reflexivity].
  eapply (field_ok_nested_ok _ _ _ _ []) in Hs as [Hs _];
    [|reflexivity..|constructor].
  split; [|split].
  - apply expand_returns_blocks.
    rewrite activemq_block_returns, dynamodb_block_returns, kinesis_block_returns,
      msk_block_returns, !flat_block_returns by done. done.
  - intros k Hk'. unfold mapper_keys in Hk'.
    rewrite !elem_of_cons, elem_of_nil in Hk'.
    destruct Hk' as [->|[->|[->|[->|[->|[->|[]]]]]]]; done.
  - intros k k' m' Hin Hb. unfold nested_blocks in Hin.
    rewrite !elem_of_cons, elem_of_nil in Hin.
    destruct Hin as [[= -> ->]|[[= -> ->]|[[= -> ->]|[[= -> ->]|[]]]]].
    + apply (Ha2 m'); [done|set_solver].
    + apply (Hd2 m'); [done|set_solver].
    + apply (Hk2 m'); [done|set_solver].
    + apply (Hm2 m'); [done|set_solver].
Qed.

End Validity.

(** The ActiveMQ node with one filter is accepted, whatever the matcher
    and the ARN check accept. *)
Lemma valid_node_expands_witness :
  exists o, expandPipeSourceParameters utc_Parse (Some valid_node) = Returned (Some o).
Proof.
  apply (valid_node_expands (fun _ _ => true) (fun _ => true) utc_Parse
           (fun _ => []) utc_Parse valid_node).
  vm_compute. reflexivity.
Defined.
